(** * The streaming chat backend of main.py, embedded in Rocq

    The development follows main.py: the three tables (User, Conversation,
    Message), the helpers [save_message] and [get_or_create_conversation],
    the handler [chat_stream] with its inner [event_generator], and the
    handler [generate_conversation_title].

    - A Python [str] is a [string]; one [ascii] stands for one code point
      below 256, and [len] is [String.length].
    - The database is a [Store] of rows in insertion order.  A query is a
      total read of the store; a [commit] may raise.  Queries that raise
      and requests that are cancelled are the [Hazards] under which
      [chat_stream_under] and [generate_conversation_title_under] run.
    - Everything the handlers cannot decide themselves (fresh uuids, the
      clock, a failing commit, the completion agent) is taken from an
      environment [Env], indexed by a step counter, so that every behaviour
      of the outside world is covered by some environment.
    - Every interaction with the database or with the agent is appended to
      a [trace], so that the order of effects can be stated. *)

From Stdlib Require Import String Ascii List ZArith Lia Bool.
From Stdlib Require Import Sorting.Sorted Sorting.Permutation.
Import ListNotations.

Local Open Scope list_scope.
Local Open Scope string_scope.

(** ** Python strings *)

Module PyStr.

Definition LF : string := String (ascii_of_nat 10) EmptyString.
Definition DQUOTE : ascii := ascii_of_nat 34.
Definition SQUOTE : ascii := ascii_of_nat 39.

(** [bool(s)] for a str: the empty string is the only falsy one. *)
Definition truthy (s : string) : bool :=
  match s with EmptyString => false | String _ _ => true end.

(** [c.isspace()] for a code point below 256: TAB..CR, FS..US, space,
    NEL and NBSP. *)
Definition isspace (c : ascii) : bool :=
  let n := nat_of_ascii c in
  (((9 <=? n) && (n <=? 13)) || ((28 <=? n) && (n <=? 32))
   || (n =? 133) || (n =? 160))%nat.

Fixpoint lstrip (s : string) : string :=
  match s with
  | EmptyString => EmptyString
  | String c r => if isspace c then lstrip r else s
  end.

Fixpoint rstrip (s : string) : string :=
  match s with
  | EmptyString => EmptyString
  | String c r =>
      match rstrip r with
      | EmptyString => if isspace c then EmptyString else String c EmptyString
      | r' => String c r'
      end
  end.

(** [s.strip()] *)
Definition strip (s : string) : string := rstrip (lstrip s).

(** [s.replace(c, '')] for a one-character [c]. *)
Fixpoint remove_char (c : ascii) (s : string) : string :=
  match s with
  | EmptyString => EmptyString
  | String d r =>
      if Ascii.eqb d c then remove_char c r else String d (remove_char c r)
  end.

(** [s[:n]] *)
Definition prefix_slice (n : nat) (s : string) : string := substring 0 n s.

(** Every character of [s] satisfies [p]. *)
Fixpoint all_chars (p : ascii -> bool) (s : string) : bool :=
  match s with
  | EmptyString => true
  | String c r => p c && all_chars p r
  end.

Definition first_char (s : string) : option ascii :=
  match s with EmptyString => None | String c _ => Some c end.

Fixpoint last_char (s : string) : option ascii :=
  match s with
  | EmptyString => None
  | String c EmptyString => Some c
  | String _ r => last_char r
  end.

Definition is_quote (c : ascii) : bool :=
  Ascii.eqb c DQUOTE || Ascii.eqb c SQUOTE.

(** The string of the characters of [s] that are in [cs], from both
    ends: [s.strip(cs)] with a set of characters. *)
Fixpoint lstrip_set (p : ascii -> bool) (s : string) : string :=
  match s with
  | EmptyString => EmptyString
  | String c r => if p c then lstrip_set p r else s
  end.

Fixpoint rstrip_set (p : ascii -> bool) (s : string) : string :=
  match s with
  | EmptyString => EmptyString
  | String c r =>
      match rstrip_set p r with
      | EmptyString => if p c then EmptyString else String c EmptyString
      | r' => String c r'
      end
  end.

End PyStr.

(** ** The tables *)

Module User.
Record t := mk
  { id : string; email : string; name : option string;
    password : string; createdAt : Z }.
End User.

Module Conversation.
Record t := mk
  { id : string; title : string; userId : string; createdAt : Z }.
End Conversation.

Module Message.
Record t := mk
  { id : string; role : string; content : string;
    conversationId : string; createdAt : Z }.
End Message.

Record ChatRequest := mkChatRequest
  { user_id : string; conv_id : string; prompt : string }.

(** The rows of the Conversation and Message tables, in insertion order. *)
Record Store := mkStore
  { conversations : list Conversation.t; messages : list Message.t }.

(** ** The completion agent *)

(** [TextMessage(content=..., source=...)] *)
Record TextMessage := mkTextMessage
  { tm_content : string; tm_source : string }.

(** An event of [on_messages_stream]: one that has a [content] attribute
    holding a str (a streaming chunk), or one without it (the closing
    Response).  An event whose [content] makes [+=] raise ends the loop as
    a stream that raises at that point does, and is covered by the failure
    of the stream. *)
Inductive StreamEvent :=
| ChunkEvent (content : string)
| NoContentEvent.

(** What [on_messages] returns: [chat_message] may be missing; when it is
    there its [content] is a str or something without [strip]. *)
Inductive ChatContent :=
| StrContent (s : string)
| OtherContent.

Record Response := mkResponse { chat_message : option ChatContent }.

(** ** Results, effects and the world *)

(** [Raise msg]: an [Exception] [e] with [str(e) = msg] propagates. *)
Inductive Result (A : Type) :=
| Ok (a : A)
| Raise (msg : string).
Arguments Ok {A} a.
Arguments Raise {A} msg.

Inductive Effect :=
| DbSelectMessages (conversation_id : string) (limit : option nat)
    (rows : list Message.t)
| DbAddConversation (c : Conversation.t)
| DbAddMessage (m : Message.t)
| DbSetTitle (conversation_id : string) (title : string)
| AgentStream (input : list TextMessage)
| AgentOnce (system_message : string) (input : list TextMessage).

Record Env := mkEnv
  { env_uuid4 : nat -> string;
    env_utcnow : nat -> Z;
    (** [Some msg]: the commit issued at that step raises. *)
    env_commit_fault : nat -> option string;
    (** the events the stream yields, then [Some msg] when it raises
        after them and [None] when it is exhausted *)
    env_on_messages_stream :
      nat -> list TextMessage -> list StreamEvent * option string;
    env_on_messages : nat -> string -> list TextMessage -> Result Response }.

Record World := mkWorld
  { db : Store; steps : nat; trace : list Effect }.

Definition M (A : Type) : Type := World -> Result A * World.

Definition ret {A} (a : A) : M A := fun w => (Ok a, w).

Definition bind {A B} (m : M A) (k : A -> M B) : M B :=
  fun w =>
    match m w with
    | (Ok a, w') => k a w'
    | (Raise msg, w') => (Raise msg, w')
    end.

Notation "x <- m ;; k" := (bind m (fun x => k))
  (at level 61, m at next level, right associativity).
Notation "m ;;; k" := (bind m (fun _ => k))
  (at level 61, right associativity).

Definition tick (w : World) : World :=
  mkWorld (db w) (S (steps w)) (trace w).

Definition log (e : Effect) (w : World) : World :=
  mkWorld (db w) (steps w) (trace w ++ [e]).

Definition with_db (f : Store -> Store) (w : World) : World :=
  mkWorld (f (db w)) (steps w) (trace w).

(** The outcome of an HTTP handler. *)
Inductive Outcome (A : Type) :=
| Returned (a : A)
| HTTPException (status_code : Z) (detail : string)
| Unhandled (msg : string).
Arguments Returned {A} a.
Arguments HTTPException {A} status_code detail.
Arguments Unhandled {A} msg.

(** What the stream of [/chat/stream] carries, one constructor per
    [yield] of [event_generator]. *)
Inductive SSE :=
| Chunk (content : string)
| Done
| Error (msg : string).

(** The text of each [yield]. *)
Definition wire (e : SSE) : string :=
  match e with
  | Chunk c => "data: " ++ c ++ PyStr.LF ++ PyStr.LF
  | Done => "data: [DONE]" ++ PyStr.LF ++ PyStr.LF
  | Error msg => "data: Error: " ++ msg ++ PyStr.LF ++ PyStr.LF
  end.

Definition is_terminal (e : SSE) : bool :=
  match e with Chunk _ => false | Done | Error _ => true end.

Definition chunk_text (e : SSE) : string :=
  match e with Chunk c => c | Done | Error _ => EmptyString end.

(** The concatenation, in emission order, of the chunks of a stream. *)
Definition emitted_text (out : list SSE) : string :=
  fold_right (fun e acc => chunk_text e ++ acc) EmptyString out.

(** ** Queries *)

Fixpoint insert_by_createdAt (m : Message.t) (l : list Message.t)
  : list Message.t :=
  match l with
  | [] => [m]
  | x :: r =>
      if (Message.createdAt m <=? Message.createdAt x)%Z
      then m :: l
      else x :: insert_by_createdAt m r
  end.

(** [.order_by(Message.createdAt)]; rows of equal time keep their
    insertion order. *)
Definition order_by_createdAt (l : list Message.t) : list Message.t :=
  fold_right insert_by_createdAt [] l.

(** [select(Message).where(Message.conversationId == cid)
      .order_by(Message.createdAt)] *)
Definition history_of (cid : string) (s : Store) : list Message.t :=
  order_by_createdAt
    (filter (fun m => String.eqb (Message.conversationId m) cid)
       (messages s)).

Definition limit_rows {A} (limit : option nat) (rows : list A) : list A :=
  match limit with None => rows | Some n => firstn n rows end.

(** [select(Conversation).where(Conversation.id == cid)] *)
Definition conversation_by_id (cid : string) (s : Store)
  : option Conversation.t :=
  find (fun c => String.eqb (Conversation.id c) cid) (conversations s).

(** [select(Conversation).where(Conversation.id == cid,
      Conversation.userId == uid)] *)
Definition conversation_of_user (cid uid : string) (s : Store)
  : option Conversation.t :=
  find (fun c => String.eqb (Conversation.id c) cid
                 && String.eqb (Conversation.userId c) uid)
    (conversations s).

Definition add_message (m : Message.t) (s : Store) : Store :=
  mkStore (conversations s) (messages s ++ [m]).

Definition add_conversation (c : Conversation.t) (s : Store) : Store :=
  mkStore (conversations s ++ [c]) (messages s).

Definition set_title (cid title : string) (s : Store) : Store :=
  mkStore
    (map (fun c =>
            if String.eqb (Conversation.id c) cid
            then Conversation.mk (Conversation.id c) title
                   (Conversation.userId c) (Conversation.createdAt c)
            else c)
       (conversations s))
    (messages s).

(** [role = "User" if msg.role == "user" else "Assistant"], then
    [f"{role}: {msg.content}\n"] *)
Definition render_line (msg : Message.t) : string :=
  (if String.eqb (Message.role msg) "user" then "User" else "Assistant")
  ++ ": " ++ Message.content msg ++ PyStr.LF.

Definition render_lines (msgs : list Message.t) : string :=
  fold_left (fun acc msg => acc ++ render_line msg) msgs EmptyString.

Section Handlers.

Variable env : Env.

Definition uuid4 : M string :=
  fun w => (Ok (env_uuid4 env (steps w)), tick w).

Definition utcnow : M Z :=
  fun w => (Ok (env_utcnow env (steps w)), tick w).

(** [await db.commit()] of the pending change [f], recorded as [e]. *)
Definition commit (e : Effect) (f : Store -> Store) : M unit :=
  fun w =>
    match env_commit_fault env (steps w) with
    | Some msg => (Raise msg, tick w)
    | None => (Ok tt, log e (with_db f (tick w)))
    end.

Definition select_messages (cid : string) (limit : option nat)
  : M (list Message.t) :=
  fun w =>
    let rows := limit_rows limit (history_of cid (db w)) in
    (Ok rows, log (DbSelectMessages cid limit rows) w).

Definition save_message (conv_id role content : string) : M unit :=
  msg_id <- uuid4 ;;
  now <- utcnow ;;
  let msg := Message.mk msg_id role content conv_id now in
  commit (DbAddMessage msg) (add_message msg).

Definition get_or_create_conversation (user_id conv_id : string)
  : M Conversation.t :=
  fun w =>
    match conversation_by_id conv_id (db w) with
    | Some conv => (Ok conv, w)
    | None =>
        (now <- utcnow ;;
         let conv :=
           Conversation.mk conv_id "New Conversation" user_id now in
         commit (DbAddConversation conv) (add_conversation conv) ;;;
         ret conv) w
    end.

(** The history rendered by [chat_stream] into [conversation_context]. *)
Definition build_context (history_messages : list Message.t) : string :=
  match history_messages with
  | [] => EmptyString
  | _ =>
      fold_left (fun acc msg => acc ++ render_line msg) history_messages
        ("Previous conversation:" ++ PyStr.LF)
      ++ PyStr.LF ++ "Current user message: "
  end.

(** The body of the [async for]: the response accumulated so far and the
    chunks yielded so far. *)
Fixpoint relay (events : list StreamEvent) (assistant_response : string)
  (out : list SSE) : string * list SSE :=
  match events with
  | [] => (assistant_response, out)
  | ChunkEvent content :: rest =>
      if PyStr.truthy content
      then relay rest (assistant_response ++ content)
             (out ++ [Chunk content])%list
      else relay rest assistant_response out
  | NoContentEvent :: rest => relay rest assistant_response out
  end.

(** [event_generator], read to its end by the client.  No [Exception]
    leaves it: the [except] clause turns it into the last [yield].  The
    run that is cancelled is [event_generator_cancelled]. *)
Definition event_generator (req : ChatRequest) (w : World)
  : list SSE * World :=
  let message := mkTextMessage (prompt req) "user" in
  let '(events, failure) :=
    env_on_messages_stream env (steps w) [message] in
  let w1 := log (AgentStream [message]) (tick w) in
  let '(assistant_response, out) := relay events EmptyString [] in
  match failure with
  | Some msg => ((out ++ [Error msg])%list, w1)
  | None =>
      if PyStr.truthy assistant_response
      then
        match save_message (conv_id req) "assistant" assistant_response w1
        with
        | (Ok _, w2) => ((out ++ [Done])%list, w2)
        | (Raise msg, w2) => ((out ++ [Error msg])%list, w2)
        end
      else ((out ++ [Done])%list, w1)
  end.

(** [chat_stream]: the events of the StreamingResponse, read to the end,
    or the exception that leaves the handler before there is one. *)
Definition chat_stream (req : ChatRequest) (current_user : User.t)
  : M (list SSE) :=
  get_or_create_conversation (User.id current_user) (conv_id req) ;;;
  history_messages <- select_messages (conv_id req) None ;;
  let conversation_context := build_context history_messages in
  save_message (conv_id req) "user" (prompt req) ;;;
  (fun w => let '(out, w') := event_generator req w in (Ok out, w')).

Definition title_system_message : string :=
  "You are a title generation specialist. Based on the conversation content, generate a concise, descriptive title (maximum 50 characters) that captures the main topic or theme of the conversation. Return only the title, nothing else.".

(** Lines 494 to 496: the clean-up of the title. *)
Definition clean_title (title : string) : string :=
  let title :=
    PyStr.strip
      (PyStr.remove_char PyStr.SQUOTE
         (PyStr.remove_char PyStr.DQUOTE title)) in
  if (50 <? String.length title)%nat
  then PyStr.prefix_slice 47 title ++ "..."
  else title.

(** Lines 488 to 491: the title read from the response. *)
Definition response_title (response : Response) : Result string :=
  match chat_message response with
  | Some (StrContent s) => Ok (PyStr.strip s)
  | Some OtherContent => Raise "object has no attribute 'strip'"
  | None => Ok "Conversation"
  end.

Definition title_prompt (conversation_text : string) : string :=
  "Generate a title for this conversation:" ++ PyStr.LF ++ PyStr.LF
  ++ conversation_text.

Definition generate_conversation_title (conversation_id : string)
  (current_user : User.t) (w : World) : Outcome string * World :=
  match
    conversation_of_user conversation_id (User.id current_user) (db w)
  with
  | None => (HTTPException 404 "Conversation not found", w)
  | Some conversation =>
      match select_messages conversation_id (Some 10) w with
      | (Raise msg, w1) => (Unhandled msg, w1)
      | (Ok [], w1) => (Returned "New Conversation", w1)
      | (Ok messages, w1) =>
          let conversation_text := render_lines messages in
          let message :=
            mkTextMessage (title_prompt conversation_text) "user" in
          let w2 := log (AgentOnce title_system_message [message])
                      (tick w1) in
          let attempt : Result string * World :=
            match
              env_on_messages env (steps w1) title_system_message [message]
            with
            | Raise msg => (Raise msg, w2)
            | Ok response =>
                match response_title response with
                | Raise msg => (Raise msg, w2)
                | Ok title =>
                    let title := clean_title title in
                    match
                      commit (DbSetTitle conversation_id title)
                        (set_title conversation_id title) w2
                    with
                    | (Ok _, w3) => (Ok title, w3)
                    | (Raise msg, w3) => (Raise msg, w3)
                    end
                end
            end in
          match attempt with
          | (Ok title, w3) => (Returned title, w3)
          | (Raise _, w3) => (Returned "Conversation", w3)
          end
      end
  end.

End Handlers.

(** ** Notions used to state the properties *)

(** The provider's result as it reaches the client: line 489 followed by
    lines 494 to 496. *)
Definition normalized_title (content : string) : string :=
  clean_title (PyStr.strip content).

(** [s] without its quote characters, written without the code's
    [replace]: the characters of [s] that are not quotes, in order. *)
Definition without_quotes (s : string) : string :=
  string_of_list_ascii
    (filter (fun c => negb (PyStr.is_quote c)) (list_ascii_of_string s)).

Definition not_space (c : option ascii) : bool :=
  match c with Some c => negb (PyStr.isspace c) | None => true end.

(** The normalization as the specification words it: quote characters and
    whitespace are stripped at both ends only, then the 50-character rule. *)
Definition title_as_specified (content : string) : string :=
  let p := fun c => PyStr.is_quote c || PyStr.isspace c in
  let title := PyStr.rstrip_set p (PyStr.lstrip_set p content) in
  if (50 <? String.length title)%nat
  then PyStr.prefix_slice 47 title ++ "..."
  else title.

(** The context as the specification words it: the rendered history
    followed by the new prompt. *)
Definition context_as_specified (history : list Message.t) (prompt : string)
  : string :=
  build_context history ++ prompt.

(** The inputs of the calls to the agent, in order. *)
Fixpoint agent_inputs (tr : list Effect) : list (list TextMessage) :=
  match tr with
  | [] => []
  | AgentStream input :: r => input :: agent_inputs r
  | AgentOnce _ input :: r => input :: agent_inputs r
  | _ :: r => agent_inputs r
  end.

(** What a run that ended with the event [t] has appended to the Message
    table: after [Done] the one assistant message that holds the text sent,
    or nothing when no text was sent; after [Error] nothing. *)
Definition reply_stored (req : ChatRequest) (out : list SSE) (t : SSE)
  (added : list Message.t) : Prop :=
  match t with
  | Chunk _ => False
  | Error _ => added = []
  | Done =>
      if PyStr.truthy (emitted_text out)
      then exists m,
          added = [m]
          /\ Message.role m = "assistant"
          /\ Message.conversationId m = conv_id req
          /\ Message.content m = emitted_text out
      else added = []
  end.

(** What a whole turn has done.  When the handler raises, the agent was
    not called and no message was stored.  When it returns, the user
    message was stored, then the agent was called, once and with the prompt
    alone, and the reply was stored as [reply_stored] says. *)
Definition turn_outcome (req : ChatRequest) (w : World)
  (r : Result (list SSE) * World) : Prop :=
  match r with
  | (Raise _, w') =>
      exists tr,
        trace w' = (trace w ++ tr)%list
        /\ agent_inputs tr = []
        /\ messages (db w') = messages (db w)
  | (Ok out, w') =>
      exists um pre post added cs t,
        trace w'
        = (trace w ++ pre ++ DbAddMessage um
             :: AgentStream [mkTextMessage (prompt req) "user"] :: post)%list
        /\ agent_inputs pre = [] /\ agent_inputs post = []
        /\ Message.role um = "user"
        /\ Message.content um = prompt req
        /\ Message.conversationId um = conv_id req
        /\ messages (db w') = (messages (db w) ++ um :: added)%list
        /\ out = (map Chunk cs ++ [t])%list
        /\ reply_stored req out t added
  end.

Definition final_event (out : list SSE) : option SSE :=
  match rev out with [] => None | e :: _ => Some e end.

Definition stored_title (cid : string) (s : Store) : option string :=
  option_map Conversation.title (conversation_by_id cid s).

Definition chronological (l : list Message.t) : Prop :=
  Sorted (fun a b => (Message.createdAt a <= Message.createdAt b)%Z) l.

Fixpoint repeat_char (c : ascii) (n : nat) : string :=
  match n with
  | O => EmptyString
  | S n => String c (repeat_char c n)
  end.

(** ** Concrete worlds, used to run the handlers *)

Module Sample.

Definition alice : User.t :=
  User.mk "u-alice" "alice@example.org" (Some "Alice") "hash-a" 1.

Definition mallory : User.t :=
  User.mk "u-mallory" "mallory@example.org" None "hash-m" 2.

Definition hello : Message.t :=
  Message.mk "m-1" "user" "hello" "c-1" 10.

Definition hi_there : Message.t :=
  Message.mk "m-2" "assistant" "hi there" "c-1" 11.

(** One conversation of alice with two messages, and an empty one. *)
Definition store : Store :=
  mkStore
    [ Conversation.mk "c-1" "New Conversation" "u-alice" 5;
      Conversation.mk "c-2" "New Conversation" "u-alice" 6 ]
    [ hello; hi_there ].

Definition world : World := mkWorld store 0 [].

Definition uuid (n : nat) : string :=
  String (ascii_of_nat (97 + n)) "-uuid".

Definition clock (n : nat) : Z := 100 + Z.of_nat n.

(** The stream yields two chunks around an empty one and is exhausted;
    the one-shot agent answers with a quoted title. *)
Definition env_ok : Env :=
  mkEnv uuid clock (fun _ => None)
    (fun _ _ =>
       ([ChunkEvent "Hel"; ChunkEvent EmptyString; ChunkEvent "lo";
         NoContentEvent], None))
    (fun _ _ _ =>
       Ok (mkResponse
             (Some (StrContent
                      (String PyStr.DQUOTE
                         ("Don't Stop" ++ String PyStr.DQUOTE " ")))))).

(** The stream raises after one chunk; the one-shot agent raises. *)
Definition env_provider_fails : Env :=
  mkEnv uuid clock (fun _ => None)
    (fun _ _ => ([ChunkEvent "Hel"], Some "connection reset"))
    (fun _ _ _ => Raise "rate limited").

(** The stream yields nothing with content and is exhausted. *)
Definition env_silent : Env :=
  mkEnv uuid clock (fun _ => None)
    (fun _ _ => ([ChunkEvent EmptyString; NoContentEvent], None))
    (fun _ _ _ => Ok (mkResponse None)).

Definition req : ChatRequest := mkChatRequest "u-alice" "c-1" "again".

End Sample.


(** ** The read handlers *)

Module ConversationOut.
Record t := mk { id : string; title : string }.
End ConversationOut.

Module MessageOut.
Record t := mk
  { id : string; role : string; content : string; created_at : Z }.
End MessageOut.

Definition conversation_out (c : Conversation.t) : ConversationOut.t :=
  ConversationOut.mk (Conversation.id c) (Conversation.title c).

Definition message_out (msg : Message.t) : MessageOut.t :=
  MessageOut.mk (Message.id msg) (Message.role msg) (Message.content msg)
    (Message.createdAt msg).

(** [get_conversations], lines 326 to 339: the rows go through the
    response model [ConversationOut]. *)
Definition get_conversations (conversations_flag : Z) (current_user : User.t)
  (w : World) : list ConversationOut.t :=
  if negb (conversations_flag =? 1)%Z
  then []
  else
    map conversation_out
      (filter
         (fun c => String.eqb (Conversation.userId c) (User.id current_user))
         (conversations (db w))).

(** [get_conversation_messages], lines 343 to 376 *)
Definition get_conversation_messages (conversation_id : string)
  (current_user : User.t) : M (list MessageOut.t) :=
  fun w =>
    match
      conversation_of_user conversation_id (User.id current_user) (db w)
    with
    | None => (Ok [], w)
    | Some conversation =>
        (messages <- select_messages conversation_id None ;;
         ret (map message_out messages)) w
    end.

(** ** Further notions used to state properties *)

(** The [content] of the events that have one, in order. *)
Fixpoint chunk_contents (events : list StreamEvent) : list string :=
  match events with
  | [] => []
  | ChunkEvent content :: rest => content :: chunk_contents rest
  | NoContentEvent :: rest => chunk_contents rest
  end.

(** Primary key of the Conversation table: no two rows share an id. *)
Definition unique_conversation_ids (s : Store) : Prop :=
  NoDup (map Conversation.id (conversations s)).

(** Every message of the conversation [cid] was created at [t] at the
    latest. *)
Definition history_not_after (cid : string) (t : Z) (s : Store) : Prop :=
  forall m, In m (messages s) -> Message.conversationId m = cid ->
            (Message.createdAt m <= t)%Z.

(** The role and content of each row of a listing. *)
Definition said (rows : list MessageOut.t) : list (string * string) :=
  map (fun r => (MessageOut.role r, MessageOut.content r)) rows.

Definition listing (r : Result (list MessageOut.t) * World)
  : list MessageOut.t :=
  match fst r with Ok rows => rows | Raise _ => [] end.

Module Sample2.

(** A request of mallory for a conversation that is not stored yet. *)
Definition req_new : ChatRequest := mkChatRequest "u-mallory" "c-9" "first".

End Sample2.

(** ** Accounts, tokens and passwords *)

(** A value of a JWT payload: a str or a datetime (microseconds). *)
Inductive Value :=
| VStr (s : string)
| VTime (t : Z).

(** A Python dict with str keys, in insertion order. *)
Definition dict : Type := list (string * Value).

(** [d.get(k)] *)
Definition dict_get (k : string) (d : dict) : option Value :=
  match find (fun kv => String.eqb (fst kv) k) d with
  | Some kv => Some (snd kv)
  | None => None
  end.

(** [d.update({k: v})]: a key already there keeps its place. *)
Fixpoint dict_update (d : dict) (k : string) (v : Value) : dict :=
  match d with
  | [] => [(k, v)]
  | (k', v') :: r =>
      if String.eqb k' k then (k, v) :: r else (k', v') :: dict_update r k v
  end.

(** PyJWT and bcrypt, as the code calls them.  [jwt_decode] gives [None]
    when [jwt.decode] raises a [PyJWTError]; hashing and checking may
    raise. *)
Record AuthLib := mkAuthLib
  { jwt_encode : dict -> string;
    jwt_decode : string -> option dict;
    bcrypt_gensalt : nat -> string;
    bcrypt_hashpw : string -> string -> Result string;
    bcrypt_checkpw : string -> string -> Result bool }.

Record UserSignup := mkUserSignup
  { signup_email : string; signup_password : string;
    signup_name : option string }.


Module UserResponse.
Record t := mk
  { id : string; email : string; name : option string; created_at : Z }.
End UserResponse.

Record TokenResponse := mkTokenResponse
  { access_token : string; token_type : string; user : UserResponse.t }.

(** The User table beside the world of the chat handlers. *)
Record Site := mkSite { site_users : list User.t; site_world : World }.

Definition JWT_EXPIRATION_HOURS : Z := 24.

(** [timedelta(hours=h)] *)
Definition timedelta_hours (h : Z) : Z := (h * 3600000000)%Z.

Definition user_response (u : User.t) : UserResponse.t :=
  UserResponse.mk (User.id u) (User.email u) (User.name u)
    (User.createdAt u).

(** [User.id == user_id] for the value read from a payload. *)
Definition id_is (user_id : Value) (u : User.t) : bool :=
  match user_id with
  | VStr s => String.eqb (User.id u) s
  | VTime _ => false
  end.

Section Auth.

Variable lib : AuthLib.
Variable env : Env.

(** [create_access_token], lines 135 to 143.  [if expires_delta:] is
    false for [None] and for a zero timedelta. *)
Definition create_access_token (data : dict) (expires_delta : option Z)
  : M string :=
  fun w =>
    let to_encode := data in
    let '(expire, w1) :=
      match expires_delta with
      | Some delta =>
          if (delta =? 0)%Z
          then ((env_utcnow env (steps w)
                 + timedelta_hours JWT_EXPIRATION_HOURS)%Z, tick w)
          else ((env_utcnow env (steps w) + delta)%Z, tick w)
      | None =>
          ((env_utcnow env (steps w)
            + timedelta_hours JWT_EXPIRATION_HOURS)%Z, tick w)
      end in
    let to_encode := dict_update to_encode "exp" (VTime expire) in
    (Ok (jwt_encode lib to_encode), w1).

(** [verify_token], lines 145 to 153 *)
Definition verify_token (token : string) : option Value :=
  match jwt_decode lib token with
  | Some payload =>
      match dict_get "sub" payload with
      | None => None
      | Some user_id => Some user_id
      end
  | None => None
  end.

(** [get_current_user], lines 156 to 182 *)
Definition get_current_user (credentials : string) (st : Site)
  : Outcome User.t :=
  match verify_token credentials with
  | None => HTTPException 401 "Could not validate credentials"
  | Some user_id =>
      match find (id_is user_id) (site_users st) with
      | None => HTTPException 401 "User not found"
      | Some user => Returned user
      end
  end.

(** [get_current_user_info], lines 281 to 289 *)
Definition get_current_user_info (current_user : User.t) : UserResponse.t :=
  UserResponse.mk (User.id current_user) (User.email current_user)
    (User.name current_user) (User.createdAt current_user).

(** [signup], lines 197 to 237 *)
Definition signup (user_data : UserSignup) (st : Site)
  : Outcome TokenResponse * Site :=
  match
    find (fun u => String.eqb (User.email u) (signup_email user_data))
      (site_users st)
  with
  | Some existing_user =>
      (HTTPException 400 "Email already registered", st)
  | None =>
      let w := site_world st in
      let salt := bcrypt_gensalt lib (steps w) in
      let w := tick w in
      match bcrypt_hashpw lib (signup_password user_data) salt with
      | Raise msg => (Unhandled msg, mkSite (site_users st) w)
      | Ok hashed_password =>
          let user_id := env_uuid4 env (steps w) in
          let w := tick w in
          let user :=
            User.mk user_id (signup_email user_data) (signup_name user_data)
              hashed_password (env_utcnow env (steps w)) in
          let w := tick w in
          match env_commit_fault env (steps w) with
          | Some msg => (Unhandled msg, mkSite (site_users st) (tick w))
          | None =>
              let users := (site_users st ++ [user])%list in
              match
                create_access_token [("sub", VStr (User.id user))] None
                  (tick w)
              with
              | (Ok token, w) =>
                  (Returned (mkTokenResponse token "bearer"
                               (user_response user)),
                   mkSite users w)
              | (Raise msg, w) => (Unhandled msg, mkSite users w)
              end
          end
      end
  end.


End Auth.

(** The token library as it answers at the time [now]: it gives back the
    subject of a token it made, provided the token expires after [now]
    ([jwt.decode] verifies "exp"). *)
Definition jwt_round_trip_at (lib : AuthLib) (now : Z) : Prop :=
  forall (payload : dict) (s : string) (exp : Z),
    dict_get "sub" payload = Some (VStr s) ->
    dict_get "exp" payload = Some (VTime exp) ->
    (now < exp)%Z ->
    exists decoded,
      jwt_decode lib (jwt_encode lib payload) = Some decoded
      /\ dict_get "sub" decoded = Some (VStr s).


Definition unique_emails (st : Site) : Prop :=
  NoDup (map User.email (site_users st)).

Module SampleAuth.

(** A stand-in for the two libraries: a token is its subject after
    "jwt:", a hash is the password after "$". *)
Definition lib : AuthLib :=
  mkAuthLib
    (fun payload =>
       match dict_get "sub" payload with
       | Some (VStr s) => "jwt:" ++ s
       | _ => "jwt:"
       end)
    (fun token =>
       match token with
       | String "j" (String "w" (String "t" (String ":" subject))) =>
           Some [("sub", VStr subject)]
       | _ => None
       end)
    (fun _ => "salt")
    (fun password salt => Ok ("$" ++ password))
    (fun password hashed => Ok (String.eqb hashed ("$" ++ password))).

(** The same stand-in as it answers at the time [now]: a token that
    expires at [now] or before is refused. *)
Definition lib_at (now : Z) : AuthLib :=
  mkAuthLib
    (fun payload =>
       match dict_get "sub" payload, dict_get "exp" payload with
       | Some (VStr s), Some (VTime exp) =>
           if (now <? exp)%Z then "jwt:" ++ s else "old:" ++ s
       | Some (VStr s), _ => "jwt:" ++ s
       | _, _ => "jwt:"
       end)
    (jwt_decode lib)
    (bcrypt_gensalt lib) (bcrypt_hashpw lib) (bcrypt_checkpw lib).

Definition site : Site :=
  mkSite [Sample.alice; Sample.mallory] Sample.world.

Definition carol : UserSignup :=
  mkUserSignup "carol@example.org" "s3cret" (Some "Carol").

End SampleAuth.

(** ** Runs that are interrupted *)

(** What can interrupt a handler besides a commit that raises.  A query
    ([db.execute]) may raise, and the queries of the handlers are outside
    their [try].  The request may be cancelled while the handler awaits
    the agent, as when the client goes away: [asyncio.CancelledError],
    like the [GeneratorExit] of a closed generator, is a [BaseException]
    and not an [Exception], so the [except Exception] of lines 430 and 504
    lets it through.  [cancelled_at = Some i] cancels a stream once its
    first [i] events are handled, and a one-shot call before it answers. *)
Record Hazards := mkHazards
  { conversation_query_fault : option string;
    messages_query_fault : option string;
    cancelled_at : option nat }.

(** Nothing interrupts: the runs of [chat_stream] and
    [generate_conversation_title] above. *)
Definition calm : Hazards := mkHazards None None None.

(** The name under which a cancellation leaves a handler. *)
Definition CancelledError : string := "CancelledError".

(** [await db.execute(...)] *)
Definition execute (fault : option string) : M unit :=
  fun w =>
    match fault with
    | Some msg => (Raise msg, w)
    | None => (Ok tt, w)
    end.

Section Interrupted.

Variable env : Env.

(** [event_generator] cancelled once the first [i] events of the stream
    are handled: their chunks were yielded, the [except] clause is passed
    by, nothing more is yielded and the text accumulated is dropped. *)
Definition event_generator_cancelled (i : nat) (req : ChatRequest)
  (w : World) : list SSE * World :=
  let message := mkTextMessage (prompt req) "user" in
  let '(events, _) :=
    env_on_messages_stream env (steps w) [message] in
  let w1 := log (AgentStream [message]) (tick w) in
  let '(assistant_response, out) :=
    relay (firstn i events) EmptyString [] in
  (out, w1).

Definition event_generator_under (h : Hazards) (req : ChatRequest)
  (w : World) : list SSE * World :=
  match cancelled_at h with
  | None => event_generator env req w
  | Some i => event_generator_cancelled i req w
  end.

(** [chat_stream], lines 380 to 434, with what can interrupt it. *)
Definition chat_stream_under (h : Hazards) (req : ChatRequest)
  (current_user : User.t) : M (list SSE) :=
  execute (conversation_query_fault h) ;;;
  get_or_create_conversation env (User.id current_user) (conv_id req) ;;;
  execute (messages_query_fault h) ;;;
  history_messages <- select_messages (conv_id req) None ;;
  let conversation_context := build_context history_messages in
  save_message env (conv_id req) "user" (prompt req) ;;;
  (fun w => let '(out, w') := event_generator_under h req w in (Ok out, w')).

(** [generate_conversation_title], lines 437 to 506, with what can
    interrupt it: either query raising, and a cancellation while
    [on_messages] (line 486) is awaited. *)
Definition generate_conversation_title_under (h : Hazards)
  (conversation_id : string) (current_user : User.t) (w : World)
  : Outcome string * World :=
  match conversation_query_fault h with
  | Some msg => (Unhandled msg, w)
  | None =>
      match
        conversation_of_user conversation_id (User.id current_user) (db w)
      with
      | None => (HTTPException 404 "Conversation not found", w)
      | Some conversation =>
          match messages_query_fault h with
          | Some msg => (Unhandled msg, w)
          | None =>
              match
                cancelled_at h,
                limit_rows (Some 10) (history_of conversation_id (db w))
              with
              | Some _, m :: rows =>
                  let messages := m :: rows in
                  let w1 :=
                    log (DbSelectMessages conversation_id (Some 10) messages)
                      w in
                  let message :=
                    mkTextMessage (title_prompt (render_lines messages))
                      "user" in
                  (Unhandled CancelledError,
                   log (AgentOnce title_system_message [message]) (tick w1))
              | _, _ =>
                  generate_conversation_title env conversation_id
                    current_user w
              end
          end
      end
  end.

End Interrupted.

(** The step at which [chat_stream] draws the id of the user message:
    two steps later when the conversation has to be created first. *)
Definition turn_start (req : ChatRequest) (w : World) : nat :=
  match conversation_by_id (conv_id req) (db w) with
  | Some _ => steps w
  | None => 2 + steps w
  end.

(** The commit that creates the conversation, when one is needed, goes
    through. *)
Definition creation_commits (env : Env) (req : ChatRequest) (w : World)
  : Prop :=
  match conversation_by_id (conv_id req) (db w) with
  | Some _ => True
  | None => env_commit_fault env (1 + steps w) = None
  end.

(** The row that [chat_stream] stores for the prompt. *)
Definition user_message (env : Env) (req : ChatRequest) (w : World)
  : Message.t :=
  Message.mk (env_uuid4 env (turn_start req w)) "user" (prompt req)
    (conv_id req) (env_utcnow env (1 + turn_start req w)).

(** What a whole turn has done, interruptions included.  When the
    handler raises, the agent was not called and no message was stored.
    When it returns, the user message was stored, then the agent was
    called, once and with the prompt alone; a stream read to its end
    stored the reply as [reply_stored] says, and a cancelled one yielded
    chunks only and stored nothing more. *)
Definition turn_outcome_under (env : Env) (h : Hazards) (req : ChatRequest)
  (w : World) (r : Result (list SSE) * World) : Prop :=
  match r with
  | (Raise _, w') =>
      exists tr,
        trace w' = (trace w ++ tr)%list
        /\ agent_inputs tr = []
        /\ messages (db w') = messages (db w)
  | (Ok out, w') =>
      exists pre post added,
        trace w'
        = (trace w ++ pre ++ DbAddMessage (user_message env req w)
             :: AgentStream [mkTextMessage (prompt req) "user"] :: post)%list
        /\ agent_inputs pre = [] /\ agent_inputs post = []
        /\ messages (db w')
           = (messages (db w) ++ user_message env req w :: added)%list
        /\ match cancelled_at h with
           | None =>
               exists cs t,
                 out = (map Chunk cs ++ [t])%list
                 /\ reply_stored req out t added
           | Some _ => (exists cs, out = map Chunk cs) /\ added = []
           end
  end.

Module Sample3.

(** As [Sample.env_ok], but the commit of the reply (step 6 of a turn on
    a stored conversation) raises. *)
Definition env_reply_commit_fails : Env :=
  mkEnv Sample.uuid Sample.clock
    (fun n => if (n =? 6)%nat then Some "db down" else None)
    (env_on_messages_stream Sample.env_ok)
    (env_on_messages Sample.env_ok).

(** The client goes away once the first event is handled. *)
Definition gone_after_one : Hazards := mkHazards None None (Some 1).

(** The query on the Message table raises. *)
Definition messages_query_down : Hazards :=
  mkHazards None (Some "connection lost") None.

Definition note (id : string) (conversation_id : string) (t : Z)
  : Message.t :=
  Message.mk id "user" ("note " ++ id) conversation_id t.

(** A conversation of alice with twelve messages that were not inserted in
    the order of their times, and one message of another conversation
    among them. *)
Definition store : Store :=
  mkStore
    [ Conversation.mk "c-3" "New Conversation" "u-alice" 7 ]
    [ note "n-01" "c-3" 30; note "n-02" "c-3" 20; note "n-03" "c-3" 50;
      note "n-04" "c-3" 40; note "n-05" "c-3" 10; note "x-01" "c-1" 15;
      note "n-06" "c-3" 60; note "n-07" "c-3" 70; note "n-08" "c-3" 80;
      note "n-09" "c-3" 90; note "n-10" "c-3" 100; note "n-11" "c-3" 110;
      note "n-12" "c-3" 120 ].

Definition world : World := mkWorld store 0 [].

End Sample3.
(** ** Facts about strings *)

Module PyStrFacts.
Import PyStr.

Lemma append_assoc (a b c : string) : (a ++ b) ++ c = a ++ (b ++ c).
Proof. induction a as [|x a IH]; simpl; [reflexivity | now rewrite IH]. Qed.

Lemma append_empty_r (a : string) : a ++ EmptyString = a.
Proof. induction a as [|x a IH]; simpl; [reflexivity | now rewrite IH]. Qed.

Lemma length_append (a b : string) :
  String.length (a ++ b) = String.length a + String.length b.
Proof. induction a as [|x a IH]; simpl; [reflexivity | now rewrite IH]. Qed.

Lemma append_is_empty (a b : string) :
  a ++ b = EmptyString -> a = EmptyString /\ b = EmptyString.
Proof. destruct a; simpl; intros H; [now split | discriminate]. Qed.

Lemma truthy_false (s : string) : truthy s = false <-> s = EmptyString.
Proof. destruct s; simpl; split; intros H; congruence. Qed.

Lemma truthy_true (s : string) : truthy s = true <-> s <> EmptyString.
Proof. destruct s; simpl; split; intros H; congruence. Qed.

Lemma all_chars_append p (a b : string) :
  all_chars p (a ++ b) = all_chars p a && all_chars p b.
Proof.
  induction a as [|x a IH]; simpl; [reflexivity|].
  now rewrite IH, andb_assoc.
Qed.

Lemma length_prefix_slice (n : nat) (s : string) :
  n <= String.length s -> String.length (prefix_slice n s) = n.
Proof.
  unfold prefix_slice. revert s.
  induction n as [|n IH]; intros [|c s] H; simpl in *; try lia.
  now rewrite IH by lia.
Qed.

Lemma all_chars_prefix_slice p (n : nat) (s : string) :
  all_chars p s = true -> all_chars p (prefix_slice n s) = true.
Proof.
  unfold prefix_slice. revert s.
  induction n as [|n IH]; intros [|c s] H; simpl in *; try reflexivity.
  apply andb_true_iff in H as [Hc Hs].
  now rewrite Hc, IH.
Qed.

(** *** strip *)

Lemma lstrip_split (s : string) :
  exists l, s = l ++ lstrip s /\ all_chars isspace l = true.
Proof.
  induction s as [|c s [l [E A]]]; simpl.
  - now exists EmptyString.
  - destruct (isspace c) eqn:Hc.
    + exists (String c l). simpl. now rewrite Hc, A, <- E.
    + now exists EmptyString.
Qed.

Lemma rstrip_split (s : string) :
  exists r, s = rstrip s ++ r /\ all_chars isspace r = true.
Proof.
  induction s as [|c s [r [E A]]]; simpl.
  - now exists EmptyString.
  - destruct (rstrip s) as [|d t] eqn:Hr.
    + simpl in E. subst r.
      destruct (isspace c) eqn:Hc.
      * exists (String c s). simpl. now rewrite Hc, A.
      * exists s. now split.
    + exists r. simpl in *. now rewrite <- E.
Qed.

Lemma strip_split (s : string) :
  exists l r,
    s = l ++ strip s ++ r
    /\ all_chars isspace l = true /\ all_chars isspace r = true.
Proof.
  destruct (lstrip_split s) as [l [El Al]].
  destruct (rstrip_split (lstrip s)) as [r [Er Ar]].
  exists l, r. unfold strip. now rewrite <- Er.
Qed.

Lemma lstrip_first (s : string) : not_space (first_char (lstrip s)) = true.
Proof.
  induction s as [|c s IH]; simpl; [reflexivity|].
  destruct (isspace c) eqn:Hc; [exact IH | simpl; now rewrite Hc].
Qed.

Lemma rstrip_first (s : string) :
  not_space (first_char s) = true ->
  not_space (first_char (rstrip s)) = true.
Proof.
  destruct s as [|c s]; simpl; [reflexivity|].
  intros Hc.
  destruct (rstrip s); destruct (isspace c) eqn:E; simpl in *;
    rewrite ?E; try discriminate; reflexivity.
Qed.

Lemma rstrip_last (s : string) : not_space (last_char (rstrip s)) = true.
Proof.
  induction s as [|c s IH]; simpl; [reflexivity|].
  destruct (rstrip s) as [|d t] eqn:Hr.
  - destruct (isspace c) eqn:Hc; simpl; [reflexivity | now rewrite Hc].
  - exact IH.
Qed.

Lemma strip_ends (s : string) :
  not_space (first_char (strip s)) = true
  /\ not_space (last_char (strip s)) = true.
Proof.
  unfold strip. split.
  - apply rstrip_first, lstrip_first.
  - apply rstrip_last.
Qed.

(** *** replace *)

Lemma remove_char_append c (a b : string) :
  remove_char c (a ++ b) = remove_char c a ++ remove_char c b.
Proof.
  induction a as [|x a IH]; simpl; [reflexivity|].
  destruct (Ascii.eqb x c); simpl; now rewrite IH.
Qed.

Lemma space_is_no_quote (c : ascii) :
  isspace c = true -> is_quote c = false.
Proof.
  destruct c as [[] [] [] [] [] [] [] []]; vm_compute; congruence.
Qed.

Lemma remove_quotes_filter (s : string) :
  remove_char SQUOTE (remove_char DQUOTE s) = without_quotes s.
Proof.
  unfold without_quotes.
  induction s as [|c s IH]; simpl; [reflexivity|].
  unfold is_quote at 1.
  destruct (Ascii.eqb c DQUOTE) eqn:Hd; simpl; [exact IH|].
  destruct (Ascii.eqb c SQUOTE) eqn:Hs; simpl; [exact IH|].
  now rewrite IH.
Qed.

Lemma without_quotes_append (a b : string) :
  without_quotes (a ++ b) = without_quotes a ++ without_quotes b.
Proof.
  rewrite <- !remove_quotes_filter. now rewrite !remove_char_append.
Qed.

Lemma without_quotes_spaces (s : string) :
  all_chars isspace s = true -> without_quotes s = s.
Proof.
  unfold without_quotes.
  induction s as [|c s IH]; simpl; [reflexivity|].
  intros H. apply andb_true_iff in H as [Hc Hs].
  rewrite (space_is_no_quote c Hc). simpl. now rewrite IH.
Qed.

Lemma without_quotes_clean (s : string) :
  all_chars (fun c => negb (is_quote c)) (without_quotes s) = true.
Proof.
  unfold without_quotes.
  induction s as [|c s IH]; simpl; [reflexivity|].
  destruct (is_quote c) eqn:Hq; simpl; [exact IH|].
  now rewrite Hq, IH.
Qed.

End PyStrFacts.

(** ** Facts about lists, streams and traces *)

Lemma skipn_length_app {A} (l r : list A) :
  skipn (List.length l) (l ++ r)%list = r.
Proof. induction l as [|x l IH]; simpl; [reflexivity | exact IH]. Qed.

Lemma emitted_text_app (a b : list SSE) :
  emitted_text (a ++ b)%list = emitted_text a ++ emitted_text b.
Proof.
  induction a as [|e a IH]; simpl; [reflexivity|].
  now rewrite IH, PyStrFacts.append_assoc.
Qed.

Lemma emitted_text_terminal (cs : list SSE) (t : SSE) :
  is_terminal t = true -> emitted_text (cs ++ [t])%list = emitted_text cs.
Proof.
  intros Ht. rewrite emitted_text_app.
  destruct t; simpl in *; try discriminate;
    apply PyStrFacts.append_empty_r.
Qed.

Lemma final_event_snoc (out : list SSE) (t : SSE) :
  final_event (out ++ [t])%list = Some t.
Proof. unfold final_event. now rewrite rev_app_distr. Qed.

Lemma terminals_of_chunks (cs : list string) :
  filter is_terminal (map Chunk cs) = [].
Proof. induction cs as [|c cs IH]; simpl; [reflexivity | exact IH]. Qed.

Lemma agent_inputs_app (a b : list Effect) :
  agent_inputs (a ++ b)%list = (agent_inputs a ++ agent_inputs b)%list.
Proof.
  induction a as [|e a IH]; simpl; [reflexivity|].
  destruct e; simpl; now rewrite IH.
Qed.

(** ** Facts about the queries *)

Lemma insert_by_createdAt_perm (m : Message.t) (l : list Message.t) :
  Permutation (m :: l) (insert_by_createdAt m l).
Proof.
  induction l as [|x l IH]; simpl; [apply Permutation_refl|].
  destruct (Message.createdAt m <=? Message.createdAt x)%Z.
  - apply Permutation_refl.
  - eapply perm_trans; [apply perm_swap|]. now apply perm_skip.
Qed.

Lemma order_by_createdAt_perm (l : list Message.t) :
  Permutation l (order_by_createdAt l).
Proof.
  induction l as [|m l IH]; simpl; [apply perm_nil|].
  eapply perm_trans; [apply perm_skip, IH|].
  apply insert_by_createdAt_perm.
Qed.

Lemma insert_by_createdAt_sorted (m : Message.t) (l : list Message.t) :
  chronological l -> chronological (insert_by_createdAt m l).
Proof.
  unfold chronological.
  induction l as [|x l IH]; simpl; intros Hs.
  - repeat constructor.
  - destruct (Message.createdAt m <=? Message.createdAt x)%Z eqn:Hle.
    + constructor; [exact Hs|]. constructor. now apply Z.leb_le.
    + apply Z.leb_gt in Hle.
      inversion Hs as [|? ? Hl Hhd]; subst.
      constructor; [now apply IH|].
      destruct l as [|y l]; simpl.
      * constructor. lia.
      * destruct (Message.createdAt m <=? Message.createdAt y)%Z.
        -- constructor. lia.
        -- inversion Hhd; subst. now constructor.
Qed.

Lemma order_by_createdAt_sorted (l : list Message.t) :
  chronological (order_by_createdAt l).
Proof.
  induction l as [|m l IH]; simpl.
  - constructor.
  - now apply insert_by_createdAt_sorted.
Qed.

(** The history of a conversation is made of exactly its messages, in
    chronological order. *)
Lemma history_of_spec (cid : string) (s : Store) :
  chronological (history_of cid s)
  /\ forall m, In m (history_of cid s)
               <-> In m (messages s) /\ Message.conversationId m = cid.
Proof.
  split; [apply order_by_createdAt_sorted|].
  intros m. unfold history_of. split.
  - intros H.
    apply (Permutation_in _ (Permutation_sym (order_by_createdAt_perm _))) in H.
    apply filter_In in H as [H1 H2]. now apply String.eqb_eq in H2.
  - intros [H1 H2].
    apply (Permutation_in _ (order_by_createdAt_perm _)).
    apply filter_In. split; [exact H1 | now apply String.eqb_eq].
Qed.

Lemma stored_title_set (cid title : string) (s : Store) (c : Conversation.t) :
  conversation_by_id cid s = Some c ->
  stored_title cid (set_title cid title s) = Some title.
Proof.
  unfold stored_title, conversation_by_id, set_title. simpl.
  induction (conversations s) as [|x l IH]; simpl; [discriminate|].
  destruct (String.eqb (Conversation.id x) cid) eqn:E; simpl.
  - now rewrite E.
  - rewrite E. exact IH.
Qed.

Lemma conversation_of_user_by_id (cid uid : string) (s : Store)
  (c : Conversation.t) :
  conversation_of_user cid uid s = Some c ->
  exists c', conversation_by_id cid s = Some c'.
Proof.
  unfold conversation_of_user, conversation_by_id.
  induction (conversations s) as [|x l IH]; simpl; [discriminate|].
  destruct (String.eqb (Conversation.id x) cid); simpl.
  - intros _. now exists x.
  - exact IH.
Qed.

(** ** Facts about the helpers *)

Section HelperFacts.

Variable env : Env.

Lemma save_message_spec (cid role content : string) (w : World) :
  save_message env cid role content w =
  let msg :=
    Message.mk (env_uuid4 env (steps w)) role content cid
      (env_utcnow env (1 + steps w)) in
  match env_commit_fault env (2 + steps w) with
  | Some msg' => (Raise msg', mkWorld (db w) (3 + steps w) (trace w))
  | None =>
      (Ok tt,
       mkWorld (add_message msg (db w)) (3 + steps w)
         (trace w ++ [DbAddMessage msg]))
  end.
Proof.
  unfold save_message, bind, uuid4, utcnow, commit. simpl.
  destruct (env_commit_fault env (S (S (steps w)))); reflexivity.
Qed.

Lemma get_or_create_conversation_spec (uid cid : string) (w : World) :
  get_or_create_conversation env uid cid w =
  match conversation_by_id cid (db w) with
  | Some conv => (Ok conv, w)
  | None =>
      let conv :=
        Conversation.mk cid "New Conversation" uid
          (env_utcnow env (steps w)) in
      match env_commit_fault env (1 + steps w) with
      | Some msg => (Raise msg, mkWorld (db w) (2 + steps w) (trace w))
      | None =>
          (Ok conv,
           mkWorld (add_conversation conv (db w)) (2 + steps w)
             (trace w ++ [DbAddConversation conv]))
      end
  end.
Proof.
  unfold get_or_create_conversation.
  destruct (conversation_by_id cid (db w)); [reflexivity|].
  unfold bind, utcnow, commit, ret. simpl.
  destruct (env_commit_fault env (S (steps w))); reflexivity.
Qed.

Lemma relay_spec (events : list StreamEvent) :
  forall (acc : string) (out : list SSE),
  exists cs,
    relay events acc out
    = (acc ++ emitted_text (map Chunk cs), (out ++ map Chunk cs)%list)
    /\ Forall (fun c => c <> EmptyString) cs.
Proof.
  induction events as [|ev events IH]; intros acc out; simpl.
  - exists []. simpl.
    now rewrite PyStrFacts.append_empty_r, app_nil_r.
  - destruct ev as [content|]; [|apply IH].
    destruct (PyStr.truthy content) eqn:Ht; [|apply IH].
    destruct (IH (acc ++ content) (out ++ [Chunk content])%list)
      as [cs [E F]].
    exists (content :: cs). split.
    + rewrite E. simpl.
      now rewrite PyStrFacts.append_assoc, <- app_assoc.
    + constructor; [now apply PyStrFacts.truthy_true | exact F].
Qed.

(** The whole of [event_generator], case by case. *)
Lemma event_generator_spec (req : ChatRequest) (w : World) :
  let message := mkTextMessage (prompt req) "user" in
  let run := env_on_messages_stream env (steps w) [message] in
  exists cs,
    Forall (fun c => c <> EmptyString) cs
    /\ relay (fst run) EmptyString []
       = (emitted_text (map Chunk cs), map Chunk cs)
    /\ event_generator env req w =
       let text := emitted_text (map Chunk cs) in
       let called := (trace w ++ [AgentStream [message]])%list in
       let msg :=
         Message.mk (env_uuid4 env (1 + steps w)) "assistant" text
           (conv_id req) (env_utcnow env (2 + steps w)) in
       match snd run with
       | Some err =>
           ((map Chunk cs ++ [Error err])%list,
            mkWorld (db w) (1 + steps w) called)
       | None =>
           if PyStr.truthy text
           then
             match env_commit_fault env (3 + steps w) with
             | Some err =>
                 ((map Chunk cs ++ [Error err])%list,
                  mkWorld (db w) (4 + steps w) called)
             | None =>
                 ((map Chunk cs ++ [Done])%list,
                  mkWorld (add_message msg (db w)) (4 + steps w)
                    (called ++ [DbAddMessage msg]))
             end
           else
             ((map Chunk cs ++ [Done])%list,
              mkWorld (db w) (1 + steps w) called)
       end.
Proof.
  intros message run.
  destruct (relay_spec (fst run) EmptyString []) as [cs [E F]].
  simpl in E.
  exists cs. split; [exact F|]. split; [exact E|].
  unfold event_generator. fold message. fold run.
  destruct run as [events failure]. simpl in E. simpl snd.
  rewrite E.
  destruct failure as [err|]; [reflexivity|].
  destruct (PyStr.truthy (emitted_text (map Chunk cs))); [|reflexivity].
  rewrite save_message_spec. simpl.
  destruct (env_commit_fault env (S (S (S (steps w))))); reflexivity.
Qed.

Lemma chat_stream_stages (req : ChatRequest) (u : User.t) (w : World) :
  chat_stream env req u w =
  match get_or_create_conversation env (User.id u) (conv_id req) w with
  | (Raise msg, w1) => (Raise msg, w1)
  | (Ok _, w1) =>
      let rows := history_of (conv_id req) (db w1) in
      let w2 := log (DbSelectMessages (conv_id req) None rows) w1 in
      match save_message env (conv_id req) "user" (prompt req) w2 with
      | (Raise msg, w3) => (Raise msg, w3)
      | (Ok _, w3) =>
          let '(out, w4) := event_generator env req w3 in (Ok out, w4)
      end
  end.
Proof.
  unfold chat_stream, bind, select_messages.
  destruct (get_or_create_conversation env (User.id u) (conv_id req) w)
    as [[c|msg] w1]; reflexivity.
Qed.

End HelperFacts.

(** ** The chat turn *)

Section ChatTurn.

Variable env : Env.

(** What a run of [event_generator] leaves behind, read off its last
    event: after [Done] the reply was stored whole, or there was nothing
    to store; after [Error] nothing was stored. *)
Lemma event_generator_outcome (req : ChatRequest) (w : World) :
  let out := fst (event_generator env req w) in
  let w' := snd (event_generator env req w) in
  exists cs t added post,
    out = (map Chunk cs ++ [t])%list
    /\ Forall (fun c => c <> EmptyString) cs
    /\ trace w'
       = (trace w ++ AgentStream [mkTextMessage (prompt req) "user"] :: post)%list
    /\ agent_inputs post = []
    /\ conversations (db w') = conversations (db w)
    /\ messages (db w') = (messages (db w) ++ added)%list
    /\ reply_stored req out t added.
Proof.
  intros out w'. subst out w'. unfold reply_stored.
  destruct (event_generator_spec env req w) as [cs [F [_ E]]].
  rewrite E. clear E. cbv zeta.
  set (text := emitted_text (map Chunk cs)).
  destruct (snd (env_on_messages_stream env (steps w) _)) as [err|].
  { exists cs, (Error err), [], []. simpl.
    rewrite app_nil_r. repeat split; auto. }
  destruct (PyStr.truthy text) eqn:Ht.
  2:{ exists cs, Done, [], []. simpl.
      rewrite app_nil_r, emitted_text_terminal by reflexivity.
      fold text. rewrite Ht. repeat split; auto. }
  destruct (env_commit_fault env (3 + steps w)) as [err|].
  { exists cs, (Error err), [], []. simpl.
    rewrite app_nil_r. repeat split; auto. }
  eexists cs, Done, [_], [_]. simpl.
  rewrite <- app_assoc.
  rewrite emitted_text_terminal by reflexivity. fold text. rewrite Ht.
  repeat split; auto. eexists. repeat split; reflexivity.
Qed.

(** A stream that is read to its end: text chunks followed by one terminal
    marker and nothing after it, [Done] when the stream is exhausted and
    the reply, if any, is committed, [Error] with the exception's message
    when the stream raises or the commit of the reply raises. *)
Lemma read_to_end_has_one_marker (req : ChatRequest) (w : World) :
  let run :=
    env_on_messages_stream env (steps w) [mkTextMessage (prompt req) "user"] in
  let out := fst (event_generator env req w) in
  exists cs t,
    out = (map Chunk cs ++ [t])%list
    /\ final_event out = Some t
    /\ filter is_terminal out = [t]
    /\ t = match snd run with
           | Some err => Error err
           | None =>
               if PyStr.truthy (emitted_text out)
               then match env_commit_fault env (3 + steps w) with
                    | Some err => Error err
                    | None => Done
                    end
               else Done
           end.
Proof.
  intros run out. subst run out.
  destruct (event_generator_spec env req w) as [cs [_ [_ E]]].
  rewrite E. clear E. cbv zeta.
  set (text := emitted_text (map Chunk cs)).
  assert (Shape : forall t w0,
    is_terminal t = true ->
    let out := fst ((map Chunk cs ++ [t])%list, w0 : World) in
    out = (map Chunk cs ++ [t])%list
    /\ final_event out = Some t
    /\ filter is_terminal out = [t]
    /\ emitted_text out = text).
  { intros t w0 Ht. simpl. repeat split.
    - apply final_event_snoc.
    - rewrite filter_app, terminals_of_chunks. simpl. now rewrite Ht.
    - now apply emitted_text_terminal. }
  destruct (snd (env_on_messages_stream env (steps w) _)) as [err|].
  { exists cs, (Error err).
    destruct (Shape (Error err) (mkWorld (db w) (1 + steps w)
      (trace w ++ [AgentStream [mkTextMessage (prompt req) "user"]]))
      eq_refl) as (A & B & C & D).
    repeat split; assumption. }
  destruct (PyStr.truthy text) eqn:Ht.
  2:{ exists cs, Done. simpl fst.
      destruct (Shape Done w eq_refl) as (A & B & C & D). simpl fst in *.
      rewrite D, Ht. repeat split; assumption. }
  destruct (env_commit_fault env (3 + steps w)) as [err|].
  - exists cs, (Error err). simpl fst.
    destruct (Shape (Error err) w eq_refl) as (A & B & C & D).
    simpl fst in *. rewrite D, Ht. repeat split; assumption.
  - exists cs, Done. simpl fst.
    destruct (Shape Done w eq_refl) as (A & B & C & D). simpl fst in *.
    rewrite D, Ht. repeat split; assumption.
Qed.

(** C6.  When the buffer accumulated by the [async for] is empty, the
    run of [event_generator] leaves the store as it found it; and in every
    run, whatever it appends to the Message table has a non-empty
    content. *)
Theorem empty_reply_not_persisted (req : ChatRequest) (w : World) :
  let run :=
    env_on_messages_stream env (steps w) [mkTextMessage (prompt req) "user"] in
  let w' := snd (event_generator env req w) in
  (fst (relay (fst run) EmptyString []) = EmptyString -> db w' = db w)
  /\ exists added,
       messages (db w') = (messages (db w) ++ added)%list
       /\ Forall (fun m => Message.role m = "assistant"
                           /\ Message.content m <> EmptyString) added.
Proof.
  intros run w'. subst run w'.
  destruct (event_generator_spec env req w) as [cs [_ [R E]]].
  rewrite E, R. clear E R. cbv zeta. simpl fst.
  set (text := emitted_text (map Chunk cs)).
  destruct (snd (env_on_messages_stream env (steps w) _)) as [err|].
  { split; [reflexivity|]. exists []. now rewrite app_nil_r. }
  destruct (PyStr.truthy text) eqn:Ht.
  2:{ split; [reflexivity|]. exists []. now rewrite app_nil_r. }
  destruct (env_commit_fault env (3 + steps w)) as [err|].
  { split; [reflexivity|]. exists []. now rewrite app_nil_r. }
  split.
  - intros Hempty. rewrite Hempty in Ht. discriminate.
  - eexists [_]. split; [reflexivity|].
    constructor; [|constructor]. simpl. split; [reflexivity|].
    now apply PyStrFacts.truthy_true.
Qed.

Lemma turn_outcome_after_conversation (req : ChatRequest) (w w1 : World)
  (pre0 : list Effect) :
  trace w1 = (trace w ++ pre0)%list ->
  agent_inputs pre0 = [] ->
  messages (db w1) = messages (db w) ->
  turn_outcome req w
    (let rows := history_of (conv_id req) (db w1) in
     let w2 := log (DbSelectMessages (conv_id req) None rows) w1 in
     match save_message env (conv_id req) "user" (prompt req) w2 with
     | (Raise msg, w3) => (Raise msg, w3)
     | (Ok _, w3) =>
         let '(out, w4) := event_generator env req w3 in (Ok out, w4)
     end).
Proof.
  intros Htr Hpre Hmsgs. cbv zeta.
  rewrite save_message_spec. cbv zeta.
  cbn [log db steps trace].
  destruct (env_commit_fault env (2 + steps w1)) as [err|].
  { unfold turn_outcome. eexists. cbn [db trace].
    rewrite Htr, <- app_assoc.
    split; [reflexivity|]. split; [|exact Hmsgs].
    rewrite agent_inputs_app, Hpre. reflexivity. }
  match goal with
  | |- context [event_generator env req ?w3] =>
      pose proof (event_generator_outcome req w3) as G;
      destruct (event_generator env req w3) as [out w4]
  end.
  cbv zeta in G. cbn [fst snd db trace messages add_message] in G.
  destruct G as (cs & t & added & post & Eout & _ & Etr & Hpost & _
                 & Emsgs & Ht).
  unfold turn_outcome.
  eexists _, (pre0 ++ [_])%list, post, added, cs, t.
  rewrite Etr, Emsgs, Htr, Hmsgs, <- !app_assoc. cbn [app].
  split; [reflexivity|].
  split; [rewrite agent_inputs_app, Hpre; reflexivity|].
  split; [exact Hpost|].
  repeat (split; [reflexivity|]).
  split; [exact Eout | exact Ht].
Qed.

Lemma chat_stream_outcome (req : ChatRequest) (u : User.t) (w : World) :
  turn_outcome req w (chat_stream env req u w).
Proof.
  rewrite chat_stream_stages, get_or_create_conversation_spec.
  destruct (conversation_by_id (conv_id req) (db w)) as [conv|].
  - apply (turn_outcome_after_conversation req w w []);
      [now rewrite app_nil_r | reflexivity | reflexivity].
  - cbv zeta.
    destruct (env_commit_fault env (1 + steps w)) as [err|].
    + exists []. cbn [trace db]. now rewrite app_nil_r.
    + eapply turn_outcome_after_conversation;
        cbn [trace db messages add_conversation]; reflexivity.
Qed.

End ChatTurn.

Section ChatClaims.

Variable env : Env.

(** C3, as the code has it.  Whatever the history of the conversation,
    a turn that reaches the agent calls it once, with a single message of
    source user whose content is the prompt of the request and nothing
    else; a turn whose handler raises does not call it. *)
Theorem provider_receives_prompt_only (req : ChatRequest) (u : User.t)
  (w : World) :
  exists tr,
    trace (snd (chat_stream env req u w)) = (trace w ++ tr)%list
    /\ agent_inputs tr
       = match fst (chat_stream env req u w) with
         | Ok _ => [[mkTextMessage (prompt req) "user"]]
         | Raise _ => []
         end.
Proof.
  pose proof (chat_stream_outcome env req u w) as H.
  unfold turn_outcome in H.
  destruct (chat_stream env req u w) as [[out|err] w']; cbn [fst snd].
  - destruct H as (um & pre & post & added & cs & t & Etr & Hpre & Hpost
                   & _).
    eexists. split; [exact Etr|].
    rewrite agent_inputs_app. cbn [agent_inputs]. now rewrite Hpre, Hpost.
  - destruct H as (tr & Etr & Htr & _). now exists tr.
Qed.

(** C9.  [chat_stream] never compares the owner of an existing
    conversation with the caller: when the conversation exists, the turn
    of any user is, event for event and row for row, the turn of any
    other user.  Its first effect is to load the whole history of the
    conversation, and unless the commit of the user message raises, the
    prompt is appended to that conversation as a user message. *)
Theorem chat_stream_ignores_owner (req : ChatRequest) (w : World)
  (conv : Conversation.t) :
  conversation_by_id (conv_id req) (db w) = Some conv ->
  forall u1 u2 : User.t,
    chat_stream env req u1 w = chat_stream env req u2 w
    /\ (exists tr,
          trace (snd (chat_stream env req u1 w))
          = (trace w
               ++ DbSelectMessages (conv_id req) None
                    (history_of (conv_id req) (db w)) :: tr)%list)
    /\ match env_commit_fault env (2 + steps w) with
       | Some err => fst (chat_stream env req u1 w) = Raise err
       | None =>
           exists um rest,
             messages (db (snd (chat_stream env req u1 w)))
             = (messages (db w) ++ um :: rest)%list
             /\ Message.role um = "user"
             /\ Message.content um = prompt req
             /\ Message.conversationId um = conv_id req
       end.
Proof.
  intros Hconv u1 u2.
  rewrite !chat_stream_stages, !get_or_create_conversation_spec, Hconv.
  split; [reflexivity|]. cbv zeta.
  rewrite save_message_spec. cbv zeta. cbn [log db steps trace].
  destruct (env_commit_fault env (2 + steps w)) as [err|].
  - cbn [fst snd trace]. split; [|reflexivity]. now exists [].
  - match goal with
    | |- context [event_generator env req ?w3] =>
        pose proof (event_generator_outcome env req w3) as G;
        destruct (event_generator env req w3) as [out w4]
    end.
    cbv zeta in G. cbn [fst snd db trace messages add_message] in G.
    destruct G as (cs & t & added & post & _ & _ & Etr & _ & _ & Emsgs & _).
    cbn [fst snd]. split.
    + eexists. rewrite Etr, <- !app_assoc. reflexivity.
    + eexists _, added. rewrite Emsgs, <- app_assoc.
      repeat split; reflexivity.
Qed.

End ChatClaims.

(** ** The title *)

(** C5, as the code has it.  The title sent back is computed from the
    provider's text with every quote character deleted, the interior ones
    too, and every other character kept in order: that text is
    [l ++ core ++ r] where [l] and [r] are whitespace only and [core]
    neither starts nor ends with whitespace.  When [core] has more than 50
    characters the title is its first 47 characters followed by three
    dots, 50 characters in all; otherwise the title is [core].  The title
    holds no quote character. *)
Theorem normalized_title_spec (content : string) :
  exists l core r,
    without_quotes content = l ++ core ++ r
    /\ PyStr.all_chars PyStr.isspace l = true
    /\ PyStr.all_chars PyStr.isspace r = true
    /\ not_space (PyStr.first_char core) = true
    /\ not_space (PyStr.last_char core) = true
    /\ normalized_title content
       = (if (50 <? String.length core)%nat
          then PyStr.prefix_slice 47 core ++ "..."
          else core)
    /\ String.length (normalized_title content)
       = (if (50 <? String.length core)%nat then 50 else String.length core)
    /\ PyStr.all_chars (fun c => negb (PyStr.is_quote c))
         (normalized_title content) = true.
Proof.
  destruct (PyStrFacts.strip_split content) as (l1 & r1 & E1 & Al1 & Ar1).
  set (inner := PyStr.strip content) in *.
  destruct (PyStrFacts.strip_split (without_quotes inner))
    as (l2 & r2 & E2 & Al2 & Ar2).
  set (core := PyStr.strip (without_quotes inner)) in *.
  assert (Ecore : normalized_title content
                  = if (50 <? String.length core)%nat
                    then PyStr.prefix_slice 47 core ++ "..."
                    else core).
  { unfold normalized_title, clean_title. fold inner.
    rewrite PyStrFacts.remove_quotes_filter. reflexivity. }
  assert (Qcore : PyStr.all_chars (fun c => negb (PyStr.is_quote c)) core
                  = true).
  { pose proof (PyStrFacts.without_quotes_clean inner) as Q.
    rewrite E2, !PyStrFacts.all_chars_append in Q.
    apply andb_true_iff in Q as [_ Q].
    now apply andb_true_iff in Q as [Q _]. }
  exists (l1 ++ l2), core, (r2 ++ r1).
  split.
  { rewrite E1 at 1.
    rewrite !PyStrFacts.without_quotes_append.
    rewrite (PyStrFacts.without_quotes_spaces l1 Al1).
    rewrite (PyStrFacts.without_quotes_spaces r1 Ar1).
    rewrite E2. now rewrite !PyStrFacts.append_assoc. }
  split; [now rewrite PyStrFacts.all_chars_append, Al1, Al2|].
  split; [now rewrite PyStrFacts.all_chars_append, Ar1, Ar2|].
  split; [apply PyStrFacts.strip_ends|].
  split; [apply PyStrFacts.strip_ends|].
  split; [exact Ecore|].
  rewrite Ecore.
  destruct (50 <? String.length core)%nat eqn:Hlen.
  - apply Nat.ltb_lt in Hlen. split.
    + rewrite PyStrFacts.length_append, PyStrFacts.length_prefix_slice by lia.
      reflexivity.
    + rewrite PyStrFacts.all_chars_append.
      now rewrite PyStrFacts.all_chars_prefix_slice.
  - split; [reflexivity | exact Qcore].
Qed.

Section TitleClaims.

Variable env : Env.

(** The whole of [generate_conversation_title] once the conversation of
    the caller is found, case by case. *)
Lemma generate_conversation_title_spec (cid : string) (u : User.t)
  (w : World) (conv : Conversation.t) :
  conversation_of_user cid (User.id u) (db w) = Some conv ->
  generate_conversation_title env cid u w =
  let rows := firstn 10 (history_of cid (db w)) in
  let selected := (trace w ++ [DbSelectMessages cid (Some 10) rows])%list in
  match rows with
  | [] => (Returned "New Conversation", mkWorld (db w) (steps w) selected)
  | _ :: _ =>
      let message := mkTextMessage (title_prompt (render_lines rows)) "user" in
      let called := (selected ++ [AgentOnce title_system_message [message]])%list in
      let fallback :=
        (Returned "Conversation", mkWorld (db w) (1 + steps w) called) in
      match env_on_messages env (steps w) title_system_message [message] with
      | Raise _ => fallback
      | Ok response =>
          match response_title response with
          | Raise _ => fallback
          | Ok title =>
              match env_commit_fault env (1 + steps w) with
              | Some _ =>
                  (Returned "Conversation",
                   mkWorld (db w) (2 + steps w) called)
              | None =>
                  (Returned (clean_title title),
                   mkWorld (set_title cid (clean_title title) (db w))
                     (2 + steps w)
                     (called ++ [DbSetTitle cid (clean_title title)]))
              end
          end
      end
  end.
Proof.
  intros Hconv. unfold generate_conversation_title. rewrite Hconv.
  unfold select_messages, limit_rows. cbv zeta.
  destruct (firstn 10 (history_of cid (db w))) as [|m rows] eqn:Hrows;
    [reflexivity|].
  cbn [log tick db steps trace].
  destruct (env_on_messages env (steps w) title_system_message _)
    as [response|err]; [|reflexivity].
  destruct (response_title response) as [title|err]; [|reflexivity].
  unfold commit, tick, log, with_db. cbn [db steps trace Nat.add].
  destruct (env_commit_fault env (S (steps w))); reflexivity.
Qed.

(** C10.  Once the conversation of the caller is found, the handler
    leaves the whole store, and so the stored title, as it was when the
    conversation has no message, when the call of the agent raises, when
    reading the title off the response raises, and when the commit
    raises.  In the one remaining case it returns the cleaned title and
    the store differs only by that title written on the conversation.
    The Message table is never touched. *)
Theorem title_written_only_on_success (cid : string) (u : User.t)
  (w : World) (conv : Conversation.t) :
  conversation_of_user cid (User.id u) (db w) = Some conv ->
  let rows := firstn 10 (history_of cid (db w)) in
  let result := generate_conversation_title env cid u w in
  let w' := snd result in
  messages (db w') = messages (db w)
  /\ match rows with
     | [] => db w' = db w
     | _ :: _ =>
         match
           env_on_messages env (steps w) title_system_message
             [mkTextMessage (title_prompt (render_lines rows)) "user"]
         with
         | Raise _ => db w' = db w
         | Ok response =>
             match response_title response with
             | Raise _ => db w' = db w
             | Ok title =>
                 match env_commit_fault env (1 + steps w) with
                 | Some _ => db w' = db w
                 | None =>
                     fst result = Returned (clean_title title)
                     /\ db w' = set_title cid (clean_title title) (db w)
                     /\ stored_title cid (db w')
                        = Some (clean_title title)
                 end
             end
         end
     end.
Proof.
  intros Hconv rows result w'. subst rows result w'.
  rewrite (generate_conversation_title_spec cid u w conv Hconv).
  cbv zeta.
  destruct (firstn 10 (history_of cid (db w))) as [|m rows];
    [now split|].
  destruct (env_on_messages env (steps w) title_system_message _)
    as [response|err]; [|now split].
  destruct (response_title response) as [title|err]; [|now split].
  destruct (env_commit_fault env (1 + steps w)); [now split|].
  cbn [fst snd db]. repeat split.
  destruct (conversation_of_user_by_id _ _ _ _ Hconv) as [c' Hc'].
  exact (stored_title_set cid _ (db w) c' Hc').
Qed.

End TitleClaims.

(** ** The handlers run on the sample worlds *)

Example wire_of_sample_turn :
  map wire [Chunk "Hel"; Chunk "lo"; Done]
  = [ "data: Hel" ++ PyStr.LF ++ PyStr.LF;
      "data: lo" ++ PyStr.LF ++ PyStr.LF;
      "data: [DONE]" ++ PyStr.LF ++ PyStr.LF ].
Proof. reflexivity. Qed.

Example title_of_quoted_hello :
  normalized_title
    (String PyStr.DQUOTE ("Hello World" ++ String PyStr.DQUOTE EmptyString))
  = "Hello World".
Proof. reflexivity. Qed.

Example title_of_sixty_letters :
  normalized_title (repeat_char "a" 60) = repeat_char "a" 47 ++ "..."
  /\ String.length (normalized_title (repeat_char "a" 60)) = 50.
Proof. split; reflexivity. Qed.

Example turn_cut_by_provider :
  fst (chat_stream Sample.env_provider_fails Sample.req Sample.alice
         Sample.world)
  = Ok [Chunk "Hel"; Error "connection reset"]
  /\ map Message.content
       (messages (db (snd (chat_stream Sample.env_provider_fails Sample.req
                             Sample.alice Sample.world))))
     = ["hello"; "hi there"; "again"].
Proof. split; reflexivity. Qed.

(** With a history of two messages the agent is handed the prompt, not the
    rendered history followed by the prompt. *)
Lemma provider_sees_prompt_alone :
  let w' :=
    snd (chat_stream Sample.env_ok Sample.req Sample.alice Sample.world) in
  let history := history_of "c-1" Sample.store in
  history = [Sample.hello; Sample.hi_there]
  /\ agent_inputs (trace w') = [[mkTextMessage "again" "user"]]
  /\ agent_inputs (trace w')
     <> [[mkTextMessage (context_as_specified history "again") "user"]].
Proof.
  split; [reflexivity|]. split; [reflexivity|].
  vm_compute. intros H. discriminate H.
Qed.

(** An apostrophe inside the title is deleted, where stripping both ends
    would keep it. *)
Lemma interior_quote_is_removed :
  normalized_title "Don't Stop" = "Dont Stop"
  /\ title_as_specified "Don't Stop" = "Don't Stop"
  /\ normalized_title "Don't Stop" <> title_as_specified "Don't Stop".
Proof.
  split; [reflexivity|]. split; [reflexivity|].
  vm_compute. intros H. discriminate H.
Qed.

Lemma empty_reply_not_persisted_witness :
  fst (relay [ChunkEvent EmptyString; NoContentEvent] EmptyString [])
  = EmptyString
  /\ db (snd (event_generator Sample.env_silent Sample.req Sample.world))
     = db Sample.world.
Proof.
  split; [reflexivity|].
  exact (proj1 (empty_reply_not_persisted Sample.env_silent Sample.req
                  Sample.world) eq_refl).
Defined.

Lemma chat_stream_ignores_owner_witness :
  conversation_by_id "c-1" Sample.store
  = Some (Conversation.mk "c-1" "New Conversation" "u-alice" 5)
  /\ User.id Sample.mallory <> "u-alice"
  /\ chat_stream Sample.env_ok Sample.req Sample.mallory Sample.world
     = chat_stream Sample.env_ok Sample.req Sample.alice Sample.world.
Proof.
  split; [reflexivity|].
  split; [intros H; discriminate H|].
  exact (proj1 (chat_stream_ignores_owner Sample.env_ok Sample.req
                  Sample.world _ eq_refl Sample.mallory Sample.alice)).
Defined.

Lemma title_written_only_on_success_witness :
  conversation_of_user "c-1" "u-alice" Sample.store
  = Some (Conversation.mk "c-1" "New Conversation" "u-alice" 5)
  /\ db (snd (generate_conversation_title Sample.env_provider_fails "c-1"
                Sample.alice Sample.world))
     = Sample.store
  /\ stored_title "c-1"
       (db (snd (generate_conversation_title Sample.env_ok "c-1"
                   Sample.alice Sample.world)))
     = Some "Dont Stop".
Proof.
  split; [reflexivity|]. split.
  - exact (proj2 (title_written_only_on_success Sample.env_provider_fails
                    "c-1" Sample.alice Sample.world _ eq_refl)).
  - exact (proj2 (proj2 (proj2
             (title_written_only_on_success Sample.env_ok "c-1" Sample.alice
                Sample.world _ eq_refl)))).
Defined.

(** ** Runs that are interrupted: facts *)

Lemma final_event_of_chunks (cs : list string) (t : SSE) :
  final_event (map Chunk cs) = Some t -> is_terminal t = false.
Proof.
  unfold final_event. rewrite <- map_rev.
  destruct (rev cs); simpl; [discriminate|].
  now intros [= <-].
Qed.

Lemma relay_filter (events : list StreamEvent) :
  forall (acc : string) (out : list SSE),
    relay events acc out
    = (acc ++ emitted_text
                (map Chunk (filter PyStr.truthy (chunk_contents events))),
       (out ++ map Chunk (filter PyStr.truthy (chunk_contents events)))%list).
Proof.
  induction events as [|ev events IH]; intros acc out; simpl.
  - now rewrite PyStrFacts.append_empty_r, app_nil_r.
  - destruct ev as [content|]; [|apply IH]. simpl.
    destruct (PyStr.truthy content); [|apply IH].
    rewrite IH. simpl.
    now rewrite PyStrFacts.append_assoc, <- app_assoc.
Qed.

Section InterruptedFacts.

Variable env : Env.

Lemma chat_stream_under_stages (h : Hazards) (req : ChatRequest)
  (u : User.t) (w : World) :
  chat_stream_under env h req u w =
  match conversation_query_fault h with
  | Some msg => (Raise msg, w)
  | None =>
      match get_or_create_conversation env (User.id u) (conv_id req) w with
      | (Raise msg, w1) => (Raise msg, w1)
      | (Ok _, w1) =>
          match messages_query_fault h with
          | Some msg => (Raise msg, w1)
          | None =>
              let rows := history_of (conv_id req) (db w1) in
              let w2 := log (DbSelectMessages (conv_id req) None rows) w1 in
              match save_message env (conv_id req) "user" (prompt req) w2 with
              | (Raise msg, w3) => (Raise msg, w3)
              | (Ok _, w3) =>
                  let '(out, w4) := event_generator_under env h req w3 in
                  (Ok out, w4)
              end
          end
      end
  end.
Proof.
  unfold chat_stream_under, bind, execute, select_messages.
  destruct (conversation_query_fault h); [reflexivity|].
  destruct (get_or_create_conversation env (User.id u) (conv_id req) w)
    as [[c|msg] w1]; [|reflexivity].
  destruct (messages_query_fault h); reflexivity.
Qed.

(** With nothing to interrupt them the runs are those of [chat_stream]
    and [generate_conversation_title]. *)
Lemma calm_runs (h : Hazards) (req : ChatRequest) (cid : string)
  (u : User.t) (w : World) :
  conversation_query_fault h = None ->
  messages_query_fault h = None ->
  cancelled_at h = None ->
  chat_stream_under env h req u w = chat_stream env req u w
  /\ generate_conversation_title_under env h cid u w
     = generate_conversation_title env cid u w.
Proof.
  intros Hc Hm Hx. split.
  - rewrite chat_stream_under_stages, chat_stream_stages, Hc, Hm.
    unfold event_generator_under. now rewrite Hx.
  - unfold generate_conversation_title_under. rewrite Hc, Hm, Hx.
    destruct (conversation_of_user cid (User.id u) (db w)) eqn:E;
      [reflexivity|].
    unfold generate_conversation_title. now rewrite E.
Qed.

(** The whole of a cancelled [event_generator]. *)
Lemma event_generator_cancelled_spec (i : nat) (req : ChatRequest)
  (w : World) :
  let message := mkTextMessage (prompt req) "user" in
  let run := env_on_messages_stream env (steps w) [message] in
  event_generator_cancelled env i req w
  = (map Chunk (filter PyStr.truthy (chunk_contents (firstn i (fst run)))),
     mkWorld (db w) (1 + steps w) (trace w ++ [AgentStream [message]])).
Proof.
  cbv zeta. unfold event_generator_cancelled.
  destruct (env_on_messages_stream env (steps w) _) as [events failure].
  rewrite relay_filter. reflexivity.
Qed.

Lemma turn_start_commit (req : ChatRequest) (u : User.t) (w w1 : World)
  (conv : Conversation.t) :
  get_or_create_conversation env (User.id u) (conv_id req) w = (Ok conv, w1) ->
  steps w1 = turn_start req w
  /\ creation_commits env req w
  /\ messages (db w1) = messages (db w)
  /\ exists pre0,
      trace w1 = (trace w ++ pre0)%list /\ agent_inputs pre0 = [].
Proof.
  rewrite get_or_create_conversation_spec.
  unfold turn_start, creation_commits.
  destruct (conversation_by_id (conv_id req) (db w)).
  - intros [= _ <-]. repeat split. exists []. now rewrite app_nil_r.
  - cbv zeta. destruct (env_commit_fault env (1 + steps w)); [discriminate|].
    intros [= _ <-]. repeat split. now eexists [_].
Qed.

(** A whole turn, interruptions included. *)
Lemma chat_stream_under_outcome (h : Hazards) (req : ChatRequest)
  (u : User.t) (w : World) :
  turn_outcome_under env h req w (chat_stream_under env h req u w).
Proof.
  rewrite chat_stream_under_stages.
  assert (Stop : forall msg, turn_outcome_under env h req w (Raise msg, w)).
  { intros msg. exists []. now rewrite app_nil_r. }
  destruct (conversation_query_fault h); [apply Stop|].
  destruct (get_or_create_conversation env (User.id u) (conv_id req) w)
    as [[conv|msg] w1] eqn:Hgoc.
  2:{ rewrite get_or_create_conversation_spec in Hgoc.
      destruct (conversation_by_id (conv_id req) (db w)); [discriminate|].
      cbv zeta in Hgoc.
      destruct (env_commit_fault env (1 + steps w)); [|discriminate].
      injection Hgoc as _ <-. exists []. now rewrite app_nil_r. }
  destruct (turn_start_commit req u w w1 conv Hgoc)
    as (Hsteps & _ & Hmsgs & pre0 & Htr & Hpre).
  destruct (messages_query_fault h).
  { exists pre0. now repeat split. }
  cbv zeta. rewrite save_message_spec. cbv zeta.
  cbn [log db steps trace]. rewrite Hsteps.
  destruct (env_commit_fault env (2 + turn_start req w)) as [err|].
  { eexists. cbn [db trace]. rewrite Htr, <- app_assoc.
    split; [reflexivity|]. split; [|exact Hmsgs].
    rewrite agent_inputs_app, Hpre. reflexivity. }
  fold (user_message env req w).
  unfold event_generator_under.
  destruct (cancelled_at h) as [i|] eqn:Hx.
  - rewrite event_generator_cancelled_spec. cbv zeta.
    unfold turn_outcome_under. rewrite Hx.
    cbn [db steps trace messages add_message].
    exists (pre0 ++ [DbSelectMessages (conv_id req) None
                       (history_of (conv_id req) (db w1))])%list, [], [].
    rewrite Htr, Hmsgs, <- !app_assoc. cbn [app].
    split; [reflexivity|].
    split; [rewrite agent_inputs_app, Hpre; reflexivity|].
    split; [reflexivity|]. split; [reflexivity|].
    split; [now eexists | reflexivity].
  - match goal with
    | |- context [event_generator env req ?w3] =>
        pose proof (event_generator_outcome env req w3) as G;
        destruct (event_generator env req w3) as [out w4]
    end.
    cbv zeta in G. cbn [fst snd db trace messages add_message] in G.
    destruct G as (cs & t & added & post & Eout & _ & Etr & Hpost & _
                   & Emsgs & Ht).
    unfold turn_outcome_under. rewrite Hx.
    exists (pre0 ++ [DbSelectMessages (conv_id req) None
                       (history_of (conv_id req) (db w1))])%list, post, added.
    rewrite Etr, Emsgs, Htr, Hmsgs, <- !app_assoc. cbn [app].
    split; [reflexivity|].
    split; [rewrite agent_inputs_app, Hpre; reflexivity|].
    split; [exact Hpost|]. split; [reflexivity|].
    exists cs, t. now split.
Qed.

(** When no query raises and the two commits before the agent go through,
    the handler returns. *)
Lemma chat_stream_under_returns (h : Hazards) (req : ChatRequest)
  (u : User.t) (w : World) :
  conversation_query_fault h = None ->
  creation_commits env req w ->
  messages_query_fault h = None ->
  env_commit_fault env (2 + turn_start req w) = None ->
  exists out w', chat_stream_under env h req u w = (Ok out, w').
Proof.
  intros Hc Hcreate Hm Hcommit.
  rewrite chat_stream_under_stages, Hc, Hm.
  rewrite get_or_create_conversation_spec.
  unfold creation_commits, turn_start in *.
  destruct (conversation_by_id (conv_id req) (db w)); cbv zeta.
  - rewrite save_message_spec. cbv zeta. cbn [log db steps trace].
    rewrite Hcommit.
    destruct (event_generator_under env h req _) as [out w4]. now eexists _, _.
  - rewrite Hcreate. cbv zeta. rewrite save_message_spec. cbv zeta.
    cbn [log db steps trace]. rewrite Hcommit.
    destruct (event_generator_under env h req _) as [out w4]. now eexists _, _.
Qed.

End InterruptedFacts.

(** ** The claims that interruptions bear on *)

Section InterruptedClaims.

Variable env : Env.

(** C1, as the code has it.  In a turn that ends with [Done], that is
    when the stream of the agent is exhausted without raising and the
    commit of the reply, if there is one, goes through, the text of the
    chunks sent to the client, concatenated in the order sent, is the
    content of the assistant message stored by that turn: the turn stores
    the user message and then exactly one assistant message with that
    content, and when no chunk was sent it stores the user message only.
    This holds whatever interrupts the turn. *)
Theorem chunks_equal_persisted_reply (h : Hazards) (req : ChatRequest)
  (u : User.t) (w w' : World) (out : list SSE) :
  chat_stream_under env h req u w = (Ok out, w') ->
  final_event out = Some Done ->
  exists um,
    Message.role um = "user"
    /\ Message.content um = prompt req
    /\ if PyStr.truthy (emitted_text out)
       then exists am,
           messages (db w') = (messages (db w) ++ [um; am])%list
           /\ Message.role am = "assistant"
           /\ Message.conversationId am = conv_id req
           /\ Message.content am = emitted_text out
       else messages (db w') = (messages (db w) ++ [um])%list.
Proof.
  intros Hrun Hdone.
  pose proof (chat_stream_under_outcome env h req u w) as H.
  rewrite Hrun in H. unfold turn_outcome_under, reply_stored in H.
  destruct H as (pre & post & added & _ & _ & _ & Emsgs & Hshape).
  exists (user_message env req w). split; [reflexivity|].
  split; [reflexivity|].
  destruct (cancelled_at h).
  - destruct Hshape as [[cs ->] _].
    apply final_event_of_chunks in Hdone. discriminate.
  - destruct Hshape as (cs & t & Eout & Ht).
    rewrite Eout, final_event_snoc in Hdone. injection Hdone as ->.
    destruct (PyStr.truthy (emitted_text out)).
    + destruct Ht as (am & -> & Ham). exists am. now rewrite Emsgs.
    + subst added. exact Emsgs.
Qed.

(** C2.  The user message is committed before the agent is called.  When
    no query raises and the commits before the agent go through (the one
    that creates the conversation, if it is needed, and the one of the
    user message), the handler returns, and whatever the stream then
    does, complete, raise at once, raise after some chunks or be cancelled
    mid-way, the turn has committed the user message (role user, the
    prompt as content, in the conversation of the request) immediately
    before its only call of the agent, and that message is in the store
    when the turn is over.  In every other case the handler raises,
    having neither called the agent nor stored a message. *)
Theorem user_message_saved_before_provider (h : Hazards) (req : ChatRequest)
  (u : User.t) (w : World) :
  (conversation_query_fault h = None ->
   creation_commits env req w ->
   messages_query_fault h = None ->
   env_commit_fault env (2 + turn_start req w) = None ->
   exists out w' pre post,
     chat_stream_under env h req u w = (Ok out, w')
     /\ trace w'
        = (trace w ++ pre ++ DbAddMessage (user_message env req w)
             :: AgentStream [mkTextMessage (prompt req) "user"] :: post)%list
     /\ agent_inputs pre = [] /\ agent_inputs post = []
     /\ In (user_message env req w) (messages (db w')))
  /\ match chat_stream_under env h req u w with
     | (Raise _, w') =>
         (exists tr, trace w' = (trace w ++ tr)%list /\ agent_inputs tr = [])
         /\ messages (db w') = messages (db w)
     | (Ok _, w') => In (user_message env req w) (messages (db w'))
     end.
Proof.
  pose proof (chat_stream_under_outcome env h req u w) as H.
  unfold turn_outcome_under in H. split.
  - intros Hc Hcreate Hm Hcommit.
    destruct (chat_stream_under_returns env h req u w Hc Hcreate Hm Hcommit)
      as (out & w' & Hrun).
    rewrite Hrun in H.
    destruct H as (pre & post & added & Etr & Hpre & Hpost & Emsgs & _).
    exists out, w', pre, post. split; [exact Hrun|].
    repeat (split; [assumption|]).
    rewrite Emsgs. apply in_or_app. right. now left.
  - destruct (chat_stream_under env h req u w) as [[out|err] w'].
    + destruct H as (pre & post & added & _ & _ & _ & Emsgs & _).
      rewrite Emsgs. apply in_or_app. right. now left.
    + destruct H as (tr & Etr & Htr & Emsgs). split; [now exists tr|].
      exact Emsgs.
Qed.

(** C4, as the code has it.  A stream that is read to its end carries
    text chunks followed by exactly one terminal marker and nothing after
    it: [Done] when the stream of the agent is exhausted and the reply, if
    any, is committed, [Error] with the exception's message when the
    stream raises an Exception or the commit of the reply raises one;
    never none and never both.  A stream that is cancelled while the
    agent is awaited carries the chunks of the events handled so far and
    no terminal marker, and nothing is stored for it. *)
Theorem one_marker_unless_cancelled (h : Hazards) (req : ChatRequest)
  (w : World) :
  let run :=
    env_on_messages_stream env (steps w) [mkTextMessage (prompt req) "user"] in
  let out := fst (event_generator_under env h req w) in
  match cancelled_at h with
  | None =>
      exists cs t,
        out = (map Chunk cs ++ [t])%list
        /\ final_event out = Some t
        /\ filter is_terminal out = [t]
        /\ t = match snd run with
               | Some err => Error err
               | None =>
                   if PyStr.truthy (emitted_text out)
                   then match env_commit_fault env (3 + steps w) with
                        | Some err => Error err
                        | None => Done
                        end
                   else Done
               end
  | Some i =>
      out = map Chunk (filter PyStr.truthy (chunk_contents (firstn i (fst run))))
      /\ filter is_terminal out = []
      /\ db (snd (event_generator_under env h req w)) = db w
  end.
Proof.
  cbv zeta. unfold event_generator_under.
  destruct (cancelled_at h) as [i|].
  - rewrite event_generator_cancelled_spec. cbv zeta. cbn [fst snd db].
    repeat split. apply terminals_of_chunks.
  - apply read_to_end_has_one_marker.
Qed.

End InterruptedClaims.

Section TitleClaimsRevised.

Variable env : Env.

(** C7, as the code has it.  For a conversation of the caller that is
    found: when the query on its messages raises, the exception leaves the
    handler, the query being outside the [try]; when the request is
    cancelled while the agent is awaited, the cancellation leaves it too;
    otherwise the handler always returns a title, and when the call of
    the agent raises an Exception the title returned is "Conversation"
    and the store is as before. *)
Theorem title_survives_provider_failure (h : Hazards) (cid : string)
  (u : User.t) (w : World) (conv : Conversation.t) :
  conversation_query_fault h = None ->
  conversation_of_user cid (User.id u) (db w) = Some conv ->
  let result := generate_conversation_title_under env h cid u w in
  match messages_query_fault h with
  | Some msg => result = (Unhandled msg, w)
  | None =>
      match cancelled_at h with
      | Some _ =>
          match firstn 10 (history_of cid (db w)) with
          | [] => fst result = Returned "New Conversation"
          | _ :: _ =>
              fst result = Unhandled CancelledError
              /\ db (snd result) = db w
          end
      | None =>
          (exists title, fst result = Returned title)
          /\ forall (m : Message.t) (rows : list Message.t) (err : string),
              firstn 10 (history_of cid (db w)) = m :: rows ->
              env_on_messages env (steps w) title_system_message
                [mkTextMessage (title_prompt (render_lines (m :: rows)))
                   "user"]
              = Raise err ->
              fst result = Returned "Conversation"
              /\ db (snd result) = db w
      end
  end.
Proof.
  intros Hq Hconv. cbv zeta.
  unfold generate_conversation_title_under. rewrite Hq, Hconv.
  destruct (messages_query_fault h); [reflexivity|].
  unfold limit_rows.
  destruct (cancelled_at h).
  - destruct (firstn 10 (history_of cid (db w))) as [|m rows] eqn:Hrows.
    + rewrite (generate_conversation_title_spec env cid u w conv Hconv).
      cbv zeta. now rewrite Hrows.
    + now split.
  - rewrite (generate_conversation_title_spec env cid u w conv Hconv).
    cbv zeta. split.
    + destruct (firstn 10 (history_of cid (db w))) as [|m rows];
        [now eexists|].
      destruct (env_on_messages env (steps w) title_system_message _)
        as [response|err]; [|now eexists].
      destruct (response_title response) as [title|err]; [|now eexists].
      destruct (env_commit_fault env (1 + steps w)); now eexists.
    + intros m rows err Hrows Hfail. rewrite Hrows, Hfail. now split.
Qed.

(** C8.  Once the conversation of the caller is found, the handler reads
    the messages of the conversation once, with a limit of 10.  The
    history it reads from is made of the rows of the Message table that
    carry the id of the conversation, each once, in the order of their
    creation times; the rows read are the first rows of that history, 10
    of them or all when there are fewer.  With no message the handler
    returns "New Conversation" and the read is its only effect, so the
    agent is not called; otherwise the agent is called once, on the
    rendering of the rows read. *)
Theorem title_context_window (cid : string) (u : User.t) (w : World)
  (conv : Conversation.t) :
  conversation_of_user cid (User.id u) (db w) = Some conv ->
  let history := history_of cid (db w) in
  let rows := firstn 10 history in
  let result := generate_conversation_title env cid u w in
  Permutation history
    (filter (fun m => String.eqb (Message.conversationId m) cid)
       (messages (db w)))
  /\ chronological history
  /\ List.length rows = Nat.min 10 (List.length history)
  /\ (exists later, history = (rows ++ later)%list)
  /\ match history with
     | [] =>
         result
         = (Returned "New Conversation",
            mkWorld (db w) (steps w)
              (trace w ++ [DbSelectMessages cid (Some 10) []]))
     | _ :: _ =>
         exists tr,
           trace (snd result)
           = (trace w
                ++ DbSelectMessages cid (Some 10) rows
                :: AgentOnce title_system_message
                     [mkTextMessage (title_prompt (render_lines rows))
                        "user"]
                :: tr)%list
           /\ agent_inputs tr = []
     end.
Proof.
  intros Hconv history rows result. subst history rows result.
  split.
  { unfold history_of. apply Permutation_sym, order_by_createdAt_perm. }
  split; [apply history_of_spec|].
  split; [apply length_firstn|].
  split.
  { exists (skipn 10 (history_of cid (db w))).
    symmetry. apply firstn_skipn. }
  rewrite (generate_conversation_title_spec env cid u w conv Hconv).
  cbv zeta.
  destruct (history_of cid (db w)) as [|m history]; [reflexivity|].
  cbn [firstn].
  destruct (env_on_messages env (steps w) title_system_message _)
    as [response|err].
  2:{ exists []. cbn [snd trace]. now rewrite <- app_assoc. }
  destruct (response_title response) as [title|err].
  2:{ exists []. cbn [snd trace]. now rewrite <- app_assoc. }
  destruct (env_commit_fault env (1 + steps w)).
  - exists []. cbn [snd trace]. now rewrite <- app_assoc.
  - eexists [_]. cbn [snd trace]. rewrite <- !app_assoc.
    split; reflexivity.
Qed.

End TitleClaimsRevised.

(** ** The interrupted runs on the sample worlds *)

(** The stream is exhausted without raising and two chunks are sent, but
    the commit of the reply raises: no assistant message holds the text
    sent. *)
Lemma reply_lost_when_its_commit_raises :
  let run :=
    chat_stream_under Sample3.env_reply_commit_fails calm Sample.req
      Sample.alice Sample.world in
  snd (env_on_messages_stream Sample3.env_reply_commit_fails 3
         [mkTextMessage "again" "user"]) = None
  /\ fst run = Ok [Chunk "Hel"; Chunk "lo"; Error "db down"]
  /\ emitted_text [Chunk "Hel"; Chunk "lo"; Error "db down"] = "Hello"
  /\ map Message.content (messages (db (snd run)))
     = ["hello"; "hi there"; "again"]
  /\ ~ exists am,
        In am (messages (db (snd run)))
        /\ Message.role am = "assistant"
        /\ Message.content am = "Hello".
Proof.
  cbv zeta. repeat (split; [reflexivity|]).
  intros (am & Hin & _ & Hc). vm_compute in Hin.
  destruct Hin as [<- | [<- | [<- | []]]]; discriminate Hc.
Qed.

Lemma chunks_equal_persisted_reply_witness :
  let out := [Chunk "Hel"; Chunk "lo"; Done] in
  let w' :=
    snd (chat_stream_under Sample.env_ok calm Sample.req Sample.alice
           Sample.world) in
  chat_stream_under Sample.env_ok calm Sample.req Sample.alice Sample.world
  = (Ok out, w')
  /\ final_event out = Some Done
  /\ exists um,
      Message.role um = "user"
      /\ Message.content um = "again"
      /\ exists am,
          messages (db w') = [Sample.hello; Sample.hi_there; um; am]
          /\ Message.role am = "assistant"
          /\ Message.conversationId am = "c-1"
          /\ Message.content am = "Hello".
Proof.
  split; [reflexivity|]. split; [reflexivity|].
  exact (chunks_equal_persisted_reply Sample.env_ok calm Sample.req
           Sample.alice Sample.world _ _ eq_refl eq_refl).
Defined.

(** The stream raises after one chunk, and in a second run the client
    goes away after one event: both times the prompt is stored, before
    the agent is called. *)
Lemma user_message_saved_before_provider_witness :
  let um := Message.mk "a-uuid" "user" "again" "c-1" 101 in
  user_message Sample.env_provider_fails Sample.req Sample.world = um
  /\ conversation_query_fault calm = None
  /\ creation_commits Sample.env_provider_fails Sample.req Sample.world
  /\ messages_query_fault calm = None
  /\ env_commit_fault Sample.env_provider_fails
       (2 + turn_start Sample.req Sample.world) = None
  /\ fst (chat_stream_under Sample.env_provider_fails calm Sample.req
            Sample.alice Sample.world)
     = Ok [Chunk "Hel"; Error "connection reset"]
  /\ (exists out w' pre post,
         chat_stream_under Sample.env_provider_fails calm Sample.req
           Sample.alice Sample.world = (Ok out, w')
         /\ trace w'
            = ([] ++ pre ++ DbAddMessage um
                 :: AgentStream [mkTextMessage "again" "user"] :: post)%list
         /\ agent_inputs pre = [] /\ agent_inputs post = []
         /\ In um (messages (db w')))
  /\ exists out w' pre post,
      chat_stream_under Sample.env_ok Sample3.gone_after_one Sample.req
        Sample.alice Sample.world = (Ok out, w')
      /\ trace w'
         = ([] ++ pre ++ DbAddMessage um
              :: AgentStream [mkTextMessage "again" "user"] :: post)%list
      /\ agent_inputs pre = [] /\ agent_inputs post = []
      /\ In um (messages (db w')).
Proof.
  cbv zeta. split; [reflexivity|]. split; [reflexivity|].
  split; [exact I|]. split; [reflexivity|]. split; [reflexivity|].
  split; [reflexivity|]. split.
  - exact (proj1 (user_message_saved_before_provider
                    Sample.env_provider_fails calm Sample.req Sample.alice
                    Sample.world) eq_refl I eq_refl eq_refl).
  - exact (proj1 (user_message_saved_before_provider Sample.env_ok
                    Sample3.gone_after_one Sample.req Sample.alice
                    Sample.world) eq_refl I eq_refl eq_refl).
Defined.

(** The client goes away after the first event: one chunk was sent and no
    terminal marker follows it. *)
Lemma cancelled_stream_has_no_marker :
  fst (event_generator_under Sample.env_ok Sample3.gone_after_one Sample.req
         Sample.world)
  = [Chunk "Hel"]
  /\ filter is_terminal
       (fst (event_generator_under Sample.env_ok Sample3.gone_after_one
               Sample.req Sample.world))
     = []
  /\ final_event
       (fst (event_generator_under Sample.env_ok Sample3.gone_after_one
               Sample.req Sample.world))
     = Some (Chunk "Hel").
Proof. repeat split. Qed.

(** The conversation of alice is found, the query on its messages raises,
    and the request fails with that exception: no title is returned. *)
Lemma title_request_fails_when_query_raises :
  conversation_of_user "c-1" "u-alice" Sample.store
  = Some (Conversation.mk "c-1" "New Conversation" "u-alice" 5)
  /\ generate_conversation_title_under Sample.env_ok
       Sample3.messages_query_down "c-1" Sample.alice Sample.world
     = (Unhandled "connection lost", Sample.world)
  /\ forall title,
      fst (generate_conversation_title_under Sample.env_ok
             Sample3.messages_query_down "c-1" Sample.alice Sample.world)
      <> Returned title.
Proof.
  split; [reflexivity|]. split; [reflexivity|].
  intros title H. discriminate H.
Qed.

Lemma title_survives_provider_failure_witness :
  conversation_query_fault calm = None
  /\ conversation_of_user "c-1" "u-alice" Sample.store
     = Some (Conversation.mk "c-1" "New Conversation" "u-alice" 5)
  /\ firstn 10 (history_of "c-1" Sample.store)
     = [Sample.hello; Sample.hi_there]
  /\ env_on_messages Sample.env_provider_fails 0 title_system_message
       [mkTextMessage
          (title_prompt (render_lines [Sample.hello; Sample.hi_there]))
          "user"]
     = Raise "rate limited"
  /\ fst (generate_conversation_title_under Sample.env_provider_fails calm
            "c-1" Sample.alice Sample.world)
     = Returned "Conversation"
  /\ db (snd (generate_conversation_title_under Sample.env_provider_fails
                calm "c-1" Sample.alice Sample.world))
     = Sample.store.
Proof.
  split; [reflexivity|]. split; [reflexivity|]. split; [reflexivity|].
  split; [reflexivity|].
  exact (proj2 (title_survives_provider_failure Sample.env_provider_fails
                  calm "c-1" Sample.alice Sample.world _ eq_refl eq_refl)
           Sample.hello [Sample.hi_there] "rate limited" eq_refl eq_refl).
Defined.

(** Twelve messages inserted out of order: the ten oldest are read, in
    the order of their times, and the agent is called on their rendering;
    and for the conversation without messages the agent is not called. *)
Lemma title_context_window_witness :
  let rows := firstn 10 (history_of "c-3" Sample3.store) in
  conversation_of_user "c-3" "u-alice" Sample3.store
  = Some (Conversation.mk "c-3" "New Conversation" "u-alice" 7)
  /\ map Message.id rows
     = ["n-05"; "n-02"; "n-01"; "n-04"; "n-03"; "n-06"; "n-07"; "n-08";
        "n-09"; "n-10"]
  /\ (exists tr,
         trace (snd (generate_conversation_title Sample.env_ok "c-3"
                       Sample.alice Sample3.world))
         = ([] ++ DbSelectMessages "c-3" (Some 10) rows
              :: AgentOnce title_system_message
                   [mkTextMessage (title_prompt (render_lines rows)) "user"]
              :: tr)%list
         /\ agent_inputs tr = [])
  /\ generate_conversation_title Sample.env_ok "c-2" Sample.alice Sample.world
     = (Returned "New Conversation",
        mkWorld Sample.store 0 [DbSelectMessages "c-2" (Some 10) []]).
Proof.
  cbv zeta. split; [reflexivity|]. split; [reflexivity|]. split.
  - exact (proj2 (proj2 (proj2 (proj2
             (title_context_window Sample.env_ok "c-3" Sample.alice
                Sample3.world _ eq_refl))))).
  - exact (proj2 (proj2 (proj2 (proj2
             (title_context_window Sample.env_ok "c-2" Sample.alice
                Sample.world _ eq_refl))))).
Defined.

(** ** More about the chat turn *)

Lemma find_app_none {A} (f : A -> bool) (l r : list A) :
  find f l = None -> find f (l ++ r)%list = find f r.
Proof.
  induction l as [|x l IH]; simpl; [reflexivity|].
  destruct (f x); [discriminate | exact IH].
Qed.

Lemma find_app_some {A} (f : A -> bool) (l r : list A) (x : A) :
  find f l = Some x -> find f (l ++ r)%list = Some x.
Proof.
  induction l as [|y l IH]; simpl; [discriminate|].
  destruct (f y); [trivial | exact IH].
Qed.

Lemma conversation_by_id_absent (cid : string) (s : Store) :
  conversation_by_id cid s = None ->
  ~ In cid (map Conversation.id (conversations s)).
Proof.
  unfold conversation_by_id. intros Hnone Hin.
  apply in_map_iff in Hin as (c & Hid & Hc).
  apply (find_none _ _ Hnone) in Hc.
  rewrite Hid, String.eqb_refl in Hc. discriminate.
Qed.

Section MoreChatTurn.

Variable env : Env.

(** X1.  The chunks sent to the client are the contents of the events of
    the agent's stream that have a non-empty content, each sent once and
    in the order the agent produced them: those of all the events,
    followed by one terminal event, when the stream is read to its end,
    and those of the events handled so far, followed by nothing, when the
    turn is cancelled. *)
Theorem chunks_relayed_in_order (h : Hazards) (req : ChatRequest)
  (w : World) :
  let run :=
    env_on_messages_stream env (steps w) [mkTextMessage (prompt req) "user"] in
  let handled :=
    match cancelled_at h with
    | None => fst run
    | Some i => firstn i (fst run)
    end in
  exists tail,
    fst (event_generator_under env h req w)
    = (map Chunk (filter PyStr.truthy (chunk_contents handled)) ++ tail)%list
    /\ match cancelled_at h with
       | None => exists t, tail = [t] /\ is_terminal t = true
       | Some _ => tail = []
       end.
Proof.
  cbv zeta. unfold event_generator_under.
  destruct (cancelled_at h) as [i|].
  { rewrite event_generator_cancelled_spec. cbv zeta. cbn [fst].
    exists []. now rewrite app_nil_r. }
  unfold event_generator.
  destruct (env_on_messages_stream env (steps w) _) as [events failure].
  rewrite relay_filter. cbn [fst app].
  destruct failure as [err|]; [now eexists [_]; split; [|eexists]|].
  destruct (PyStr.truthy _); [|now eexists [_]; split; [|eexists]].
  destruct (save_message env _ _ _ _) as [[u|err] w2];
    now eexists [_]; split; [|eexists].
Qed.

(** The Conversation table after a turn: the table before, followed by the
    conversation of the request when it was missing and its commit went
    through. *)
Lemma chat_stream_conversations (req : ChatRequest) (u : User.t)
  (w : World) :
  conversations (db (snd (chat_stream env req u w)))
  = (conversations (db w)
       ++ match conversation_by_id (conv_id req) (db w) with
          | Some _ => []
          | None =>
              match env_commit_fault env (1 + steps w) with
              | Some _ => []
              | None =>
                  [Conversation.mk (conv_id req) "New Conversation"
                     (User.id u) (env_utcnow env (steps w))]
              end
          end)%list.
Proof.
  rewrite chat_stream_stages, get_or_create_conversation_spec.
  assert (Rest : forall w1,
    conversations
      (db (snd
         (let rows := history_of (conv_id req) (db w1) in
          let w2 := log (DbSelectMessages (conv_id req) None rows) w1 in
          match save_message env (conv_id req) "user" (prompt req) w2 with
          | (Raise msg, w3) => (Raise msg, w3)
          | (Ok _, w3) =>
              let '(out, w4) := event_generator env req w3 in (Ok out, w4)
          end)))
    = conversations (db w1)).
  { intros w1. cbv zeta. rewrite save_message_spec. cbv zeta.
    cbn [log db steps trace].
    destruct (env_commit_fault env (2 + steps w1)); [reflexivity|].
    match goal with
    | |- context [event_generator env req ?w3] =>
        pose proof (event_generator_outcome env req w3) as G;
        destruct (event_generator env req w3) as [out w4]
    end.
    cbv zeta in G. cbn [fst snd] in G.
    destruct G as (cs & t & added & post & _ & _ & _ & _ & Ec & _).
    cbn [snd]. rewrite Ec. reflexivity. }
  destruct (conversation_by_id (conv_id req) (db w)) as [conv|].
  - rewrite Rest. now rewrite app_nil_r.
  - cbv zeta. destruct (env_commit_fault env (1 + steps w)).
    + cbn [snd db]. now rewrite app_nil_r.
    + rewrite Rest. reflexivity.
Qed.

Lemma chat_stream_appends_messages (req : ChatRequest) (u : User.t)
  (w : World) :
  exists added,
    messages (db (snd (chat_stream env req u w)))
    = (messages (db w) ++ added)%list
    /\ List.length added <= 2
    /\ Forall (fun m => Message.conversationId m = conv_id req) added.
Proof.
  pose proof (chat_stream_outcome env req u w) as H.
  unfold turn_outcome, reply_stored in H.
  destruct (chat_stream env req u w) as [[out|err] w']; cbn [snd].
  - destruct H as (um & pre & post & added & cs & t & _ & _ & _ & _ & _
                   & Hi & Emsgs & _ & Ht).
    exists (um :: added). split; [exact Emsgs|].
    destruct t as [c| |msg]; [contradiction| |].
    + destruct (PyStr.truthy (emitted_text out)).
      * destruct Ht as (am & -> & _ & Hc & _). split; [simpl; lia|].
        repeat constructor; assumption.
      * subst added. split; [simpl; lia|]. repeat constructor; assumption.
    + subst added. split; [simpl; lia|]. repeat constructor; assumption.
  - destruct H as (tr & _ & _ & Emsgs). exists [].
    rewrite Emsgs, app_nil_r. repeat split; [simpl; lia | constructor].
Qed.

(** X2.  A turn only appends.  The rows of the Message table before the
    turn are still there, unchanged and in place, followed by at most two
    new rows, all of the conversation of the request; the rows of the
    Conversation table are still there, unchanged and in place, followed by
    at most one new row, which is the conversation of the request, owned by
    the caller and titled "New Conversation". *)
Theorem chat_stream_only_appends (req : ChatRequest) (u : User.t)
  (w : World) :
  let w' := snd (chat_stream env req u w) in
  (exists added,
      messages (db w') = (messages (db w) ++ added)%list
      /\ List.length added <= 2
      /\ Forall (fun m => Message.conversationId m = conv_id req) added)
  /\ exists created,
      conversations (db w') = (conversations (db w) ++ created)%list
      /\ List.length created <= 1
      /\ Forall (fun c => Conversation.id c = conv_id req
                          /\ Conversation.userId c = User.id u
                          /\ Conversation.title c = "New Conversation")
           created.
Proof.
  intros w'. subst w'. split.
  - apply chat_stream_appends_messages.
  - rewrite chat_stream_conversations. eexists. split; [reflexivity|].
    destruct (conversation_by_id (conv_id req) (db w));
      [split; [simpl; lia | constructor]|].
    destruct (env_commit_fault env (1 + steps w));
      [split; [simpl; lia | constructor]|].
    split; [simpl; lia|]. repeat constructor.
Qed.

(** X3.  A turn on one conversation leaves the history of every other
    conversation as it was. *)
Theorem chat_stream_keeps_other_histories (req : ChatRequest) (u : User.t)
  (w : World) (cid : string) :
  cid <> conv_id req ->
  history_of cid (db (snd (chat_stream env req u w)))
  = history_of cid (db w).
Proof.
  intros Hneq.
  destruct (chat_stream_appends_messages req u w) as (added & E & _ & F).
  unfold history_of. rewrite E, filter_app.
  replace (filter _ added) with (@nil Message.t);
    [now rewrite app_nil_r|].
  symmetry. clear E.
  induction F as [|m added Hm F IH]; simpl; [reflexivity|].
  rewrite Hm. destruct (String.eqb_spec (conv_id req) cid) as [E'|_];
    [now symmetry in E' | exact IH].
Qed.

End MoreChatTurn.

(** ** Histories and the clock *)

Lemma insert_by_createdAt_last (x m : Message.t) (r : list Message.t) :
  (Message.createdAt x <= Message.createdAt m)%Z ->
  insert_by_createdAt x (r ++ [m])%list
  = (insert_by_createdAt x r ++ [m])%list.
Proof.
  intros Hle. induction r as [|y r IH]; simpl.
  - apply Z.leb_le in Hle. now rewrite Hle.
  - destruct (Message.createdAt x <=? Message.createdAt y)%Z;
      [reflexivity | now rewrite IH].
Qed.

Lemma order_by_createdAt_last (l : list Message.t) (m : Message.t) :
  (forall x, In x l -> (Message.createdAt x <= Message.createdAt m)%Z) ->
  order_by_createdAt (l ++ [m])%list = (order_by_createdAt l ++ [m])%list.
Proof.
  unfold order_by_createdAt. induction l as [|x l IH]; intros H; simpl.
  - reflexivity.
  - rewrite IH by (intros y Hy; apply H; now right).
    apply insert_by_createdAt_last, H. now left.
Qed.

(** A message not older than the messages of its conversation goes to the
    end of the history of that conversation. *)
Lemma history_of_snoc (s s' : Store) (m : Message.t) :
  messages s' = (messages s ++ [m])%list ->
  history_not_after (Message.conversationId m) (Message.createdAt m) s ->
  history_of (Message.conversationId m) s'
  = (history_of (Message.conversationId m) s ++ [m])%list.
Proof.
  intros E H. unfold history_of. rewrite E, filter_app. simpl.
  rewrite String.eqb_refl.
  apply order_by_createdAt_last.
  intros x Hx. apply filter_In in Hx as [Hx Hc].
  apply String.eqb_eq in Hc. now apply H.
Qed.

Lemma history_of_other (s s' : Store) (m : Message.t) (cid : string) :
  messages s' = (messages s ++ [m])%list ->
  cid <> Message.conversationId m ->
  history_of cid s' = history_of cid s.
Proof.
  intros E H. unfold history_of. rewrite E, filter_app. simpl.
  destruct (String.eqb_spec (Message.conversationId m) cid) as [E'|_];
    [now symmetry in E' | now rewrite app_nil_r].
Qed.

Lemma history_not_after_snoc (s s' : Store) (m : Message.t) (cid : string)
  (t t' : Z) :
  messages s' = (messages s ++ [m])%list ->
  history_not_after cid t s ->
  (t <= t')%Z -> (Message.createdAt m <= t')%Z ->
  history_not_after cid t' s'.
Proof.
  intros E H Ht Hm x Hx Hc. rewrite E in Hx.
  apply in_app_or in Hx as [Hx | [<- | []]]; [|exact Hm].
  specialize (H x Hx Hc). lia.
Qed.

Section Histories.

Variable env : Env.

(** X4.  [save_message] and the histories.  When its commit raises the
    store is as before.  When it goes through, the history of every other
    conversation is as before, and if no message of the conversation is
    younger than the clock, the history of the conversation is the one
    before followed by the new message, which carries the given role and
    content. *)
Theorem save_message_extends_history (cid role content : string)
  (w : World) :
  let w' := snd (save_message env cid role content w) in
  let m :=
    Message.mk (env_uuid4 env (steps w)) role content cid
      (env_utcnow env (1 + steps w)) in
  match env_commit_fault env (2 + steps w) with
  | Some err =>
      fst (save_message env cid role content w) = Raise err /\ db w' = db w
  | None =>
      (forall cid', cid' <> cid ->
                    history_of cid' (db w') = history_of cid' (db w))
      /\ (history_not_after cid (env_utcnow env (1 + steps w)) (db w) ->
          history_of cid (db w') = (history_of cid (db w) ++ [m])%list)
  end.
Proof.
  intros w' m. subst w'. rewrite save_message_spec. cbv zeta.
  destruct (env_commit_fault env (2 + steps w)); [now split|].
  cbn [snd db]. fold m. split.
  - intros cid' Hneq. now apply (history_of_other (db w) _ m).
  - intros H. now apply (history_of_snoc (db w) _ m).
Qed.

(** X5.  Creation on demand happens once.  When
    [get_or_create_conversation] returns, the row it returns has the id
    asked for; if the id was missing, the row is owned by the caller and
    titled "New Conversation"; and asking again, as any user, returns that
    same row and changes nothing. *)
Theorem get_or_create_conversation_settles (uid cid : string) (w w1 : World)
  (conv : Conversation.t) :
  get_or_create_conversation env uid cid w = (Ok conv, w1) ->
  Conversation.id conv = cid
  /\ match conversation_by_id cid (db w) with
     | Some existing => conv = existing /\ w1 = w
     | None =>
         Conversation.userId conv = uid
         /\ Conversation.title conv = "New Conversation"
     end
  /\ forall uid',
      get_or_create_conversation env uid' cid w1 = (Ok conv, w1).
Proof.
  rewrite get_or_create_conversation_spec.
  destruct (conversation_by_id cid (db w)) as [existing|] eqn:Hfind.
  - intros [= <- <-]. split.
    + apply find_some in Hfind as [_ H]. now apply String.eqb_eq in H.
    + split; [now split|]. intros uid'.
      now rewrite get_or_create_conversation_spec, Hfind.
  - cbv zeta. destruct (env_commit_fault env (1 + steps w)); [discriminate|].
    intros [= <- <-]. split; [reflexivity|]. split; [now split|].
    intros uid'. rewrite get_or_create_conversation_spec.
    unfold conversation_by_id in *. cbn [db conversations add_conversation].
    rewrite (find_app_none _ _ _ Hfind). simpl.
    now rewrite String.eqb_refl.
Qed.

(** A turn on a stored conversation that ends with [Done] after some text:
    the two rows it appends. *)
Lemma chat_stream_done_rows (req : ChatRequest) (u : User.t) (w w' : World)
  (out : list SSE) (conv : Conversation.t) :
  conversation_by_id (conv_id req) (db w) = Some conv ->
  chat_stream env req u w = (Ok out, w') ->
  final_event out = Some Done ->
  emitted_text out <> EmptyString ->
  messages (db w')
  = (messages (db w)
       ++ [Message.mk (env_uuid4 env (steps w)) "user" (prompt req)
             (conv_id req) (env_utcnow env (1 + steps w));
           Message.mk (env_uuid4 env (4 + steps w)) "assistant"
             (emitted_text out) (conv_id req)
             (env_utcnow env (5 + steps w))])%list
  /\ conversations (db w') = conversations (db w).
Proof.
  intros Hconv Hrun Hdone Htext.
  rewrite chat_stream_stages, get_or_create_conversation_spec, Hconv in Hrun.
  cbv zeta in Hrun. rewrite save_message_spec in Hrun. cbv zeta in Hrun.
  cbn [log db steps trace] in Hrun.
  destruct (env_commit_fault env (2 + steps w)); [discriminate|].
  match type of Hrun with
  | context [event_generator env req ?w3] =>
      destruct (event_generator_spec env req w3) as (cs & _ & _ & E);
      rewrite E in Hrun; clear E
  end.
  cbv zeta in Hrun. cbn [db steps trace] in Hrun.
  assert (Text : forall t, is_terminal t = true ->
            emitted_text (map Chunk cs ++ [t])%list
            = emitted_text (map Chunk cs))
    by (intros t Ht; now apply emitted_text_terminal).
  destruct (snd (env_on_messages_stream env _ _)) as [err|].
  { injection Hrun as <- <-. rewrite final_event_snoc in Hdone.
    discriminate. }
  destruct (PyStr.truthy (emitted_text (map Chunk cs))) eqn:Ht.
  2:{ injection Hrun as <- <-. rewrite Text in Htext by reflexivity.
      apply PyStrFacts.truthy_false in Ht. contradiction. }
  destruct (env_commit_fault env (3 + (3 + steps w))).
  { injection Hrun as <- <-. rewrite final_event_snoc in Hdone.
    discriminate. }
  injection Hrun as <- <-. rewrite Text by reflexivity.
  cbn [db messages conversations add_message]. rewrite <- app_assoc.
  split; reflexivity.
Qed.

(** X6.  What the owner reads after a turn.  For a conversation of the
    caller, when the turn ends with [Done] after some text and the clock
    did not run backwards (no message of the conversation is younger than
    the time stamped on the prompt, and that time is not after the time
    stamped on the reply), the listing of [get_conversation_messages]
    after the turn is the listing before it, followed by the prompt as a
    user message and by the whole text sent as an assistant message. *)
Theorem listing_after_successful_turn (req : ChatRequest) (u : User.t)
  (w w' : World) (out : list SSE) (conv : Conversation.t) :
  conversation_of_user (conv_id req) (User.id u) (db w) = Some conv ->
  chat_stream env req u w = (Ok out, w') ->
  final_event out = Some Done ->
  emitted_text out <> EmptyString ->
  history_not_after (conv_id req) (env_utcnow env (1 + steps w)) (db w) ->
  (env_utcnow env (1 + steps w) <= env_utcnow env (5 + steps w))%Z ->
  said (listing (get_conversation_messages (conv_id req) u w'))
  = (said (listing (get_conversation_messages (conv_id req) u w))
       ++ [("user", prompt req); ("assistant", emitted_text out)])%list.
Proof.
  intros Hown Hrun Hdone Htext Hclock Hmono.
  destruct (conversation_of_user_by_id _ _ _ _ Hown) as [c' Hc'].
  destruct (chat_stream_done_rows req u w w' out c' Hc' Hrun Hdone Htext)
    as [Emsgs Econv].
  set (um := Message.mk (env_uuid4 env (steps w)) "user" (prompt req)
               (conv_id req) (env_utcnow env (1 + steps w))) in *.
  set (am := Message.mk (env_uuid4 env (4 + steps w)) "assistant"
               (emitted_text out) (conv_id req)
               (env_utcnow env (5 + steps w))) in *.
  set (mid := mkStore (conversations (db w)) (messages (db w) ++ [um])).
  assert (Hmid : history_of (conv_id req) mid
                 = (history_of (conv_id req) (db w) ++ [um])%list)
    by (apply (history_of_snoc (db w) mid um); [reflexivity | exact Hclock]).
  assert (Hafter : history_of (conv_id req) (db w')
                   = (history_of (conv_id req) mid ++ [am])%list).
  { apply (history_of_snoc mid (db w') am).
    - rewrite Emsgs. cbn [mid messages]. now rewrite <- app_assoc.
    - apply (history_not_after_snoc (db w) mid um (conv_id req)
               (env_utcnow env (1 + steps w)));
        [reflexivity | exact Hclock | exact Hmono | exact Hmono]. }
  unfold get_conversation_messages, conversation_of_user in *.
  rewrite Econv, Hown. unfold listing, bind, select_messages, ret, limit_rows.
  cbn [fst]. rewrite Hafter, Hmid. unfold said.
  rewrite !map_app, !map_map, <- app_assoc. reflexivity.
Qed.

End Histories.

(** ** More about titles *)

Module TitleFacts.
Import PyStr.

Lemma strip_keeps p (s : string) :
  all_chars p s = true -> all_chars p (strip s) = true.
Proof.
  intros H. destruct (PyStrFacts.strip_split s) as (l & r & E & _ & _).
  rewrite E, !PyStrFacts.all_chars_append in H.
  apply andb_true_iff in H as [_ H].
  now apply andb_true_iff in H as [H _].
Qed.

Lemma lstrip_fixed (s : string) :
  not_space (first_char s) = true -> lstrip s = s.
Proof.
  destruct s as [|c s]; simpl; [reflexivity|].
  destruct (isspace c); [discriminate | reflexivity].
Qed.

Lemma rstrip_fixed (s : string) :
  not_space (last_char s) = true -> rstrip s = s.
Proof.
  induction s as [|c s IH]; [reflexivity|].
  destruct s as [|d s].
  - simpl. destruct (isspace c); [discriminate | reflexivity].
  - intros H. change (last_char (String c (String d s)))
      with (last_char (String d s)) in H.
    specialize (IH H).
    change (rstrip (String c (String d s)))
      with (match rstrip (String d s) with
            | EmptyString =>
                if isspace c then EmptyString else String c EmptyString
            | String x y => String c (String x y)
            end).
    now rewrite IH.
Qed.

Lemma strip_fixed (s : string) :
  not_space (first_char s) = true -> not_space (last_char s) = true ->
  strip s = s.
Proof.
  intros Hf Hl. unfold strip. rewrite (lstrip_fixed s Hf).
  now apply rstrip_fixed.
Qed.

Lemma without_quotes_fixed (s : string) :
  all_chars (fun c => negb (is_quote c)) s = true -> without_quotes s = s.
Proof.
  unfold without_quotes.
  induction s as [|c s IH]; simpl; [reflexivity|].
  intros H. apply andb_true_iff in H as [Hc Hs].
  rewrite Hc. simpl. now rewrite IH.
Qed.

Lemma last_char_append (a b : string) :
  b <> EmptyString -> last_char (a ++ b) = last_char b.
Proof.
  intros Hb. induction a as [|c a IH]; [reflexivity|].
  simpl append. destruct (a ++ b) as [|d t] eqn:E.
  - apply PyStrFacts.append_is_empty in E as [_ E]. contradiction.
  - exact IH.
Qed.

(** The title before the 50-character rule. *)
Lemma clean_title_unfold (title : string) :
  clean_title title
  = let core := strip (without_quotes title) in
    if (50 <? String.length core)%nat
    then prefix_slice 47 core ++ "..."
    else core.
Proof.
  unfold clean_title. now rewrite PyStrFacts.remove_quotes_filter.
Qed.

(** A cleaned title has at most 50 characters, holds no quote and has no
    whitespace at either end. *)
Lemma clean_title_shape (title : string) :
  String.length (clean_title title) <= 50
  /\ all_chars (fun c => negb (is_quote c)) (clean_title title) = true
  /\ not_space (first_char (clean_title title)) = true
  /\ not_space (last_char (clean_title title)) = true.
Proof.
  rewrite clean_title_unfold. cbv zeta.
  set (core := strip (without_quotes title)).
  assert (Q : all_chars (fun c => negb (is_quote c)) core = true)
    by apply strip_keeps, PyStrFacts.without_quotes_clean.
  destruct (PyStrFacts.strip_ends (without_quotes title)) as [Hf Hl].
  fold core in Hf, Hl.
  destruct (50 <? String.length core)%nat eqn:Hlen.
  - apply Nat.ltb_lt in Hlen. repeat split.
    + rewrite PyStrFacts.length_append, PyStrFacts.length_prefix_slice by lia.
      simpl. lia.
    + rewrite PyStrFacts.all_chars_append.
      now rewrite PyStrFacts.all_chars_prefix_slice.
    + destruct core as [|c core]; [simpl in Hlen; lia | exact Hf].
    + now rewrite last_char_append.
  - apply Nat.ltb_ge in Hlen. repeat split; assumption.
Qed.

End TitleFacts.

(** X7.  Cleaning a title twice is cleaning it once: a title that went
    through lines 494 to 496 is left as it is by them. *)
Theorem clean_title_idempotent (title : string) :
  clean_title (clean_title title) = clean_title title.
Proof.
  destruct (TitleFacts.clean_title_shape title) as (Hlen & Hq & Hf & Hl).
  set (t := clean_title title) in *.
  rewrite TitleFacts.clean_title_unfold. cbv zeta.
  rewrite (TitleFacts.without_quotes_fixed t Hq).
  rewrite (TitleFacts.strip_fixed t Hf Hl).
  apply Nat.ltb_ge in Hlen. now rewrite Hlen.
Qed.

Lemma fold_left_render (msgs : list Message.t) (acc : string) :
  fold_left (fun acc msg => acc ++ render_line msg) msgs acc
  = acc ++ render_lines msgs.
Proof.
  unfold render_lines. revert acc.
  induction msgs as [|m msgs IH]; intros acc; simpl.
  - now rewrite PyStrFacts.append_empty_r.
  - rewrite IH, (IH (render_line m)).
    now rewrite PyStrFacts.append_assoc.
Qed.

(** X8.  The rendering of messages is line by line and in order: the
    rendering of two lists one after the other is the rendering of the
    first followed by the rendering of the second, and the context that
    [chat_stream] builds from a non-empty history is that same rendering
    between its heading and its closing line. *)
Theorem rendering_is_line_by_line (a b : list Message.t) :
  render_lines (a ++ b) = render_lines a ++ render_lines b
  /\ match a with
     | [] => build_context a = EmptyString
     | _ :: _ =>
         build_context a
         = "Previous conversation:" ++ PyStr.LF ++ render_lines a
           ++ PyStr.LF ++ "Current user message: "
     end.
Proof.
  split.
  - unfold render_lines at 1. rewrite fold_left_app.
    fold (render_lines a). apply fold_left_render.
  - destruct a as [|m a]; [reflexivity|].
    unfold build_context. rewrite fold_left_render.
    now rewrite !PyStrFacts.append_assoc.
Qed.

Lemma unique_ids_same_row (s : Store) (c c' : Conversation.t) :
  unique_conversation_ids s ->
  In c (conversations s) -> In c' (conversations s) ->
  Conversation.id c = Conversation.id c' -> c = c'.
Proof.
  unfold unique_conversation_ids.
  induction (conversations s) as [|x l IH]; simpl; [contradiction|].
  intros Hnd Hc Hc' Hid. inversion Hnd as [|? ? Hx Hl]; subst.
  destruct Hc as [-> | Hc]; destruct Hc' as [-> | Hc'].
  - reflexivity.
  - exfalso. apply Hx. rewrite Hid. now apply in_map.
  - exfalso. apply Hx. rewrite <- Hid. now apply in_map.
  - now apply IH.
Qed.

Lemma not_owner_not_found (s : Store) (cid uid : string)
  (c : Conversation.t) :
  unique_conversation_ids s ->
  conversation_by_id cid s = Some c ->
  Conversation.userId c <> uid ->
  conversation_of_user cid uid s = None.
Proof.
  intros Hu Hc Hneq.
  destruct (conversation_of_user cid uid s) as [c'|] eqn:Hc';
    [|reflexivity].
  exfalso. apply Hneq.
  apply find_some in Hc as [Hin Hid]. apply String.eqb_eq in Hid.
  apply find_some in Hc' as [Hin' H]. apply andb_true_iff in H as [Hid' Ho].
  apply String.eqb_eq in Hid', Ho.
  rewrite (unique_ids_same_row s c c' Hu Hin Hin'); [exact Ho | congruence].
Qed.

Lemma NoDup_snoc {A} (l : list A) (x : A) :
  NoDup l -> ~ In x l -> NoDup (l ++ [x])%list.
Proof.
  intros Hl Hx. induction Hl as [|y l Hy Hl IH]; simpl.
  - constructor; [intros [] | constructor].
  - constructor.
    + intros H. apply in_app_or in H as [H | [H | []]]; [now apply Hy|].
      apply Hx. now left.
    + apply IH. intros H. apply Hx. now right.
Qed.

Lemma set_title_ids (cid title : string) (s : Store) :
  Forall2
    (fun c c' =>
       Conversation.id c' = Conversation.id c
       /\ Conversation.userId c' = Conversation.userId c
       /\ Conversation.createdAt c' = Conversation.createdAt c
       /\ (Conversation.id c <> cid -> c' = c))
    (conversations s) (conversations (set_title cid title s)).
Proof.
  unfold set_title. cbn [conversations].
  induction (conversations s) as [|c l IH]; simpl; constructor; [|exact IH].
  destruct (String.eqb_spec (Conversation.id c) cid) as [E|N]; simpl.
  - repeat split; try reflexivity. intros H. contradiction.
  - repeat split; reflexivity.
Qed.

Lemma Forall2_same {A} (R : A -> A -> Prop) (l : list A) :
  (forall x, R x x) -> Forall2 R l l.
Proof. intros H. induction l; constructor; auto. Qed.

Section MoreTitle.

Variable env : Env.

(** The store after [generate_conversation_title]: as before, or as
    before with a cleaned title written on the conversation. *)
Lemma generate_conversation_title_store (cid : string) (u : User.t)
  (w : World) :
  let result := generate_conversation_title env cid u w in
  db (snd result) = db w
  \/ exists title,
      fst result = Returned (clean_title title)
      /\ db (snd result) = set_title cid (clean_title title) (db w).
Proof.
  cbv zeta.
  destruct (conversation_of_user cid (User.id u) (db w)) as [conv|] eqn:Hc.
  - rewrite (generate_conversation_title_spec env cid u w conv Hc).
    cbv zeta.
    destruct (firstn 10 (history_of cid (db w))); [now left|].
    destruct (env_on_messages env (steps w) title_system_message _)
      as [response|err]; [|now left].
    destruct (response_title response) as [title|err]; [|now left].
    destruct (env_commit_fault env (1 + steps w)); [now left|].
    right. now exists title.
  - unfold generate_conversation_title. rewrite Hc. now left.
Qed.


(** X10.  [generate_conversation_title] touches titles only, and only
    those of the conversation asked for: row by row, the Conversation
    table after the call has the ids, the owners and the creation times it
    had, and a row of another id is unchanged. *)
Theorem title_touches_one_title (cid : string) (u : User.t) (w : World) :
  Forall2
    (fun c c' =>
       Conversation.id c' = Conversation.id c
       /\ Conversation.userId c' = Conversation.userId c
       /\ Conversation.createdAt c' = Conversation.createdAt c
       /\ (Conversation.id c <> cid -> c' = c))
    (conversations (db w))
    (conversations (db (snd (generate_conversation_title env cid u w)))).
Proof.
  destruct (generate_conversation_title_store cid u w) as [E | (t & _ & E)];
    rewrite E.
  - apply Forall2_same. intros c. now repeat split.
  - apply set_title_ids.
Qed.

(** X11.  The primary key of the Conversation table is kept: when no two
    stored conversations share an id, none do after a chat turn, and none
    do after a title request. *)
Theorem conversation_ids_stay_unique (req : ChatRequest) (cid : string)
  (u : User.t) (w : World) :
  unique_conversation_ids (db w) ->
  unique_conversation_ids (db (snd (chat_stream env req u w)))
  /\ unique_conversation_ids
       (db (snd (generate_conversation_title env cid u w))).
Proof.
  unfold unique_conversation_ids. intros Hu. split.
  - rewrite chat_stream_conversations.
    destruct (conversation_by_id (conv_id req) (db w)) eqn:Hfind;
      [now rewrite app_nil_r|].
    destruct (env_commit_fault env (1 + steps w)); [now rewrite app_nil_r|].
    rewrite map_app. simpl. apply NoDup_snoc; [exact Hu|].
    now apply conversation_by_id_absent.
  - destruct (generate_conversation_title_store cid u w)
      as [E | (t & _ & E)]; rewrite E; [exact Hu|].
    unfold set_title. cbn [conversations]. rewrite map_map.
    erewrite map_ext; [exact Hu|].
    intros c. now destruct (String.eqb (Conversation.id c) cid).
Qed.

(** X12.  The title and the listing handlers check the owner.  With
    unique ids, for a stored conversation that belongs to someone else,
    [generate_conversation_title] raises 404 and
    [get_conversation_messages] returns the empty list, and neither reads
    a message, calls the agent or changes anything. *)
Theorem other_users_conversation_is_hidden (cid : string) (u : User.t)
  (w : World) (conv : Conversation.t) :
  unique_conversation_ids (db w) ->
  conversation_by_id cid (db w) = Some conv ->
  Conversation.userId conv <> User.id u ->
  generate_conversation_title env cid u w
  = (HTTPException 404 "Conversation not found", w)
  /\ get_conversation_messages cid u w = (Ok [], w).
Proof.
  intros Hu Hc Hneq.
  pose proof (not_owner_not_found (db w) cid (User.id u) conv Hu Hc Hneq)
    as Hnone.
  unfold generate_conversation_title, get_conversation_messages.
  now rewrite Hnone.
Qed.

End MoreTitle.

(** ** More about what the handlers leave to read *)

Lemma Sorted_map {A B} (R : A -> A -> Prop) (R' : B -> B -> Prop)
  (f : A -> B) (l : list A) :
  (forall a b, R a b -> R' (f a) (f b)) ->
  Sorted R l -> Sorted R' (map f l).
Proof.
  intros H. induction 1 as [|a l Hs IH Hhd]; simpl; constructor.
  - exact IH.
  - destruct Hhd; simpl; constructor. now apply H.
Qed.

Section Readers.

Variable env : Env.

(** X13.  A turn cut by an exception keeps the prompt and drops the
    reply.  When the stream of a turn ends with [Error], whether or not
    chunks were sent before it, the turn has appended the user message and
    nothing else to the Message table. *)
Theorem failed_turn_keeps_prompt_only (req : ChatRequest) (u : User.t)
  (w w' : World) (out : list SSE) (msg : string) :
  chat_stream env req u w = (Ok out, w') ->
  final_event out = Some (Error msg) ->
  exists um,
    messages (db w') = (messages (db w) ++ [um])%list
    /\ Message.role um = "user"
    /\ Message.content um = prompt req
    /\ Message.conversationId um = conv_id req.
Proof.
  intros Hrun Hend.
  pose proof (chat_stream_outcome env req u w) as H.
  rewrite Hrun in H. unfold turn_outcome, reply_stored in H.
  destruct H as (um & pre & post & added & cs & t & _ & _ & _ & Hr & Hc
                 & Hi & Emsgs & Eout & Ht).
  rewrite Eout, final_event_snoc in Hend. injection Hend as ->.
  subst added. now exists um.
Qed.

(** X14.  The listing of [get_conversation_messages] is in chronological
    order, whatever the order of insertion; for the owner it holds exactly
    the messages of the conversation, and for anyone else it is empty.
    Reading changes no row. *)
Theorem listing_is_chronological (cid : string) (u : User.t) (w : World) :
  let result := get_conversation_messages cid u w in
  Sorted (fun a b => (MessageOut.created_at a <= MessageOut.created_at b)%Z)
    (listing result)
  /\ db (snd result) = db w
  /\ match conversation_of_user cid (User.id u) (db w) with
     | None => result = (Ok [], w)
     | Some _ =>
         forall r, In r (listing result)
                   <-> exists m, r = message_out m
                                 /\ In m (messages (db w))
                                 /\ Message.conversationId m = cid
     end.
Proof.
  cbv zeta. unfold get_conversation_messages.
  destruct (conversation_of_user cid (User.id u) (db w)).
  - unfold listing, bind, select_messages, ret, limit_rows. cbn [fst snd log db].
    split; [|split; [reflexivity|]].
    + apply (Sorted_map
               (fun a b => (Message.createdAt a <= Message.createdAt b)%Z));
        [trivial | apply history_of_spec].
    + intros r. rewrite in_map_iff. split.
      * intros (m & <- & Hm). exists m. split; [reflexivity|].
        now apply history_of_spec.
      * intros (m & -> & Hm). exists m. split; [reflexivity|].
        now apply history_of_spec.
  - unfold listing. cbn [fst snd]. repeat split. constructor.
Qed.

(** X15.  Creation on demand and the list of conversations.  When a turn
    on an id that is not stored returns, [get_conversations] with the flag
    1 shows the caller the list of before followed by that id, titled
    "New Conversation"; a user of another id sees the list of before; and
    with any flag other than 1 the list is empty. *)
Theorem new_conversation_is_listed (req : ChatRequest) (u : User.t)
  (w w' : World) (out : list SSE) :
  conversation_by_id (conv_id req) (db w) = None ->
  chat_stream env req u w = (Ok out, w') ->
  get_conversations 1 u w'
  = (get_conversations 1 u w
       ++ [ConversationOut.mk (conv_id req) "New Conversation"])%list
  /\ (forall u' : User.t,
         User.id u' <> User.id u ->
         get_conversations 1 u' w' = get_conversations 1 u' w)
  /\ forall (flag : Z) (u' : User.t),
      flag <> 1%Z -> get_conversations flag u' w' = [].
Proof.
  intros Hnone Hrun.
  pose proof (chat_stream_conversations env req u w) as Hc.
  rewrite Hnone in Hc.
  assert (Hcommit : env_commit_fault env (1 + steps w) = None).
  { rewrite chat_stream_stages, get_or_create_conversation_spec, Hnone in Hrun.
    cbv zeta in Hrun.
    destruct (env_commit_fault env (1 + steps w)); [discriminate|reflexivity]. }
  rewrite Hcommit, Hrun in Hc. cbn [snd] in Hc.
  unfold get_conversations. rewrite Hc. split; [|split].
  - cbn [Z.eqb Pos.eqb negb]. rewrite filter_app, map_app. simpl.
    now rewrite String.eqb_refl.
  - intros u' Hneq. cbn [Z.eqb Pos.eqb negb]. rewrite filter_app. simpl.
    destruct (String.eqb_spec (User.id u) (User.id u')) as [E|_];
      [now symmetry in E | now rewrite app_nil_r].
  - intros flag u' Hflag.
    destruct (Z.eqb_spec flag 1) as [E|_]; [contradiction | reflexivity].
Qed.

End Readers.

(** ** Accounts, tokens and passwords: facts *)

Lemma dict_get_update_same (d : dict) (k : string) (v : Value) :
  dict_get k (dict_update d k v) = Some v.
Proof.
  unfold dict_get. induction d as [|[k' v'] d IH]; simpl.
  - now rewrite String.eqb_refl.
  - destruct (String.eqb k' k) eqn:E; simpl.
    + now rewrite String.eqb_refl.
    + rewrite E. exact IH.
Qed.


Lemma find_email_absent (email : string) (l : list User.t) :
  find (fun u => String.eqb (User.email u) email) l = None ->
  ~ In email (map User.email l).
Proof.
  intros Hnone Hin. apply in_map_iff in Hin as (u & He & Hu).
  apply (find_none _ _ Hnone) in Hu.
  rewrite He, String.eqb_refl in Hu. discriminate.
Qed.

Section AuthFacts.

Variable lib : AuthLib.
Variable env : Env.


(** The whole of [signup] for an email that is not registered, case by
    case. *)
Lemma signup_spec (user_data : UserSignup) (st : Site) :
  find (fun u => String.eqb (User.email u) (signup_email user_data))
    (site_users st) = None ->
  signup lib env user_data st =
  let w := site_world st in
  match
    bcrypt_hashpw lib (signup_password user_data)
      (bcrypt_gensalt lib (steps w))
  with
  | Raise msg =>
      (Unhandled msg,
       mkSite (site_users st) (mkWorld (db w) (1 + steps w) (trace w)))
  | Ok hashed =>
      let user :=
        User.mk (env_uuid4 env (1 + steps w)) (signup_email user_data)
          (signup_name user_data) hashed (env_utcnow env (2 + steps w)) in
      match env_commit_fault env (3 + steps w) with
      | Some msg =>
          (Unhandled msg,
           mkSite (site_users st) (mkWorld (db w) (4 + steps w) (trace w)))
      | None =>
          (Returned
             (mkTokenResponse
                (jwt_encode lib
                   (dict_update [("sub", VStr (User.id user))] "exp"
                      (VTime (env_utcnow env (4 + steps w)
                              + timedelta_hours JWT_EXPIRATION_HOURS))))
                "bearer" (user_response user)),
           mkSite (site_users st ++ [user])
             (mkWorld (db w) (5 + steps w) (trace w)))
      end
  end.
Proof.
  intros Hnone. unfold signup. rewrite Hnone. cbv zeta.
  unfold tick. cbn [db steps trace Nat.add].
  destruct (bcrypt_hashpw lib _ _) as [hashed|msg]; [|reflexivity].
  destruct (env_commit_fault env (S (S (S (steps (site_world st))))));
    reflexivity.
Qed.

(** X18.  [signup] and the User table.  An email that is registered is
    answered 400 and nothing changes.  In every case the rows of before are
    kept, at most one row is added, with the email of the request, the
    chat tables are not touched, and if no two users shared an email
    before, none do after. *)
Theorem signup_keeps_emails_unique (user_data : UserSignup) (st : Site) :
  let result := signup lib env user_data st in
  let st' := snd result in
  (In (signup_email user_data) (map User.email (site_users st)) ->
   result = (HTTPException 400 "Email already registered", st))
  /\ (exists added,
         site_users st' = (site_users st ++ added)%list
         /\ List.length added <= 1
         /\ Forall (fun u => User.email u = signup_email user_data) added)
  /\ db (site_world st') = db (site_world st)
  /\ (unique_emails st -> unique_emails st').
Proof.
  cbv zeta.
  destruct (find (fun u => String.eqb (User.email u) (signup_email user_data))
              (site_users st)) as [existing|] eqn:Hfind.
  - unfold signup. rewrite Hfind. cbn [snd]. split; [reflexivity|].
    split; [|split; [reflexivity | trivial]].
    exists []. rewrite app_nil_r. repeat split; [simpl; lia | constructor].
  - pose proof (find_email_absent _ _ Hfind) as Habsent.
    rewrite (signup_spec user_data st Hfind). cbv zeta.
    split; [intros Hin; contradiction|].
    assert (Same : forall o w1,
      (exists added,
          site_users (snd (o : Outcome TokenResponse, mkSite (site_users st) w1))
          = (site_users st ++ added)%list
          /\ List.length added <= 1
          /\ Forall (fun u => User.email u = signup_email user_data) added)).
    { intros o w1. exists []. cbn [snd site_users]. rewrite app_nil_r.
      repeat split; [simpl; lia | constructor]. }
    destruct (bcrypt_hashpw lib _ _) as [hashed|msg];
      [|split; [apply Same | split; [reflexivity | trivial]]].
    destruct (env_commit_fault env (3 + steps (site_world st)));
      [split; [apply Same | split; [reflexivity | trivial]]|].
    cbn [snd site_users site_world db]. split; [|split; [reflexivity|]].
    + eexists [_]. split; [reflexivity|].
      split; [simpl; lia | repeat constructor].
    + unfold unique_emails. cbn [site_users]. intros Hu.
      rewrite map_app. simpl. now apply NoDup_snoc.
Qed.




(** X22.  Sign up, then use the token.  With a token library that, at
    the time the token is used, gives back the subject of a token that has
    not expired, a token used before the 24 hours stamped on it are over,
    and an id drawn for the new user that no stored user has, the token
    returned by [signup] makes [get_current_user] return the user just
    created. *)
Theorem token_of_signup_is_accepted (user_data : UserSignup) (st st' : Site)
  (response : TokenResponse) (now : Z) :
  jwt_round_trip_at lib now ->
  (now < env_utcnow env (4 + steps (site_world st))
         + timedelta_hours JWT_EXPIRATION_HOURS)%Z ->
  signup lib env user_data st = (Returned response, st') ->
  (forall u, In u (site_users st) ->
             User.id u <> UserResponse.id (user response)) ->
  exists u,
    get_current_user lib (access_token response) st' = Returned u
    /\ user_response u = user response
    /\ User.email u = signup_email user_data.
Proof.
  intros Hlib Hnow Hrun Hfresh.
  destruct (find (fun u => String.eqb (User.email u) (signup_email user_data))
              (site_users st)) as [existing|] eqn:Hfind.
  { unfold signup in Hrun. rewrite Hfind in Hrun. discriminate. }
  rewrite (signup_spec user_data st Hfind) in Hrun. cbv zeta in Hrun.
  destruct (bcrypt_hashpw lib _ _) as [hashed|msg]; [|discriminate].
  destruct (env_commit_fault env _); [discriminate|].
  injection Hrun as <- <-.
  cbn [access_token user user_response UserResponse.id User.id] in *.
  unfold get_current_user, verify_token.
  match goal with
  | |- context [jwt_decode lib (jwt_encode lib ?p)] =>
      destruct (Hlib p _ _ eq_refl eq_refl Hnow) as (decoded & Hd & Hs)
  end.
  rewrite Hd, Hs. cbn [site_users].
  match goal with
  | |- context [find (id_is ?v) _] =>
      assert (Hnone : find (id_is v) (site_users st) = None)
  end.
  { match goal with
    | |- ?f = None => destruct f as [u|] eqn:Hu; [|reflexivity]
    end.
    apply find_some in Hu as [Hin Hid]. cbn [id_is] in Hid.
    apply String.eqb_eq in Hid. now apply Hfresh in Hin. }
  rewrite (find_app_none _ _ _ Hnone). cbn [find id_is User.id].
  rewrite String.eqb_refl. eexists. repeat split.
Qed.

End AuthFacts.

(** ** The further properties on the sample worlds *)

Lemma sample_ids_unique : unique_conversation_ids Sample.store.
Proof.
  unfold unique_conversation_ids. simpl.
  repeat constructor; simpl; intuition discriminate.
Qed.

Lemma sample_lib_at_round_trip (now : Z) :
  jwt_round_trip_at (SampleAuth.lib_at now) now.
Proof.
  intros payload s exp Hsub Hexp Hnow. simpl. rewrite Hsub, Hexp.
  apply Z.ltb_lt in Hnow. rewrite Hnow.
  eexists. split; reflexivity.
Qed.


Lemma sample_history_not_after :
  history_not_after "c-1" 101 Sample.store.
Proof.
  intros m [<- | [<- | []]] _; simpl; lia.
Qed.

Lemma chat_stream_keeps_other_histories_witness :
  "c-2" <> conv_id Sample.req
  /\ history_of "c-2"
       (db (snd (chat_stream Sample.env_ok Sample.req Sample.alice
                   Sample.world)))
     = history_of "c-2" Sample.store.
Proof.
  assert (H : "c-2" <> conv_id Sample.req) by (intros E; discriminate E).
  split; [exact H|].
  exact (chat_stream_keeps_other_histories Sample.env_ok Sample.req
           Sample.alice Sample.world "c-2" H).
Defined.

Lemma save_message_extends_history_witness :
  history_not_after "c-1" (env_utcnow Sample.env_ok 1) Sample.store
  /\ history_of "c-1"
       (db (snd (save_message Sample.env_ok "c-1" "user" "again"
                   Sample.world)))
     = [Sample.hello; Sample.hi_there;
        Message.mk "a-uuid" "user" "again" "c-1" 101].
Proof.
  split; [exact sample_history_not_after|].
  exact (proj2 (save_message_extends_history Sample.env_ok "c-1" "user"
                  "again" Sample.world) sample_history_not_after).
Defined.

Lemma get_or_create_conversation_settles_witness :
  let created :=
    Conversation.mk "c-9" "New Conversation" "u-mallory" 100 in
  let w1 :=
    snd (get_or_create_conversation Sample.env_ok "u-mallory" "c-9"
           Sample.world) in
  get_or_create_conversation Sample.env_ok "u-mallory" "c-9" Sample.world
  = (Ok created, w1)
  /\ get_or_create_conversation Sample.env_ok "u-alice" "c-9" w1
     = (Ok created, w1).
Proof.
  split; [reflexivity|].
  exact (proj2 (proj2
           (get_or_create_conversation_settles Sample.env_ok "u-mallory"
              "c-9" Sample.world _ _ eq_refl)) "u-alice").
Defined.

Lemma listing_after_successful_turn_witness :
  let w' :=
    snd (chat_stream Sample.env_ok Sample.req Sample.alice Sample.world) in
  chat_stream Sample.env_ok Sample.req Sample.alice Sample.world
  = (Ok [Chunk "Hel"; Chunk "lo"; Done], w')
  /\ said (listing (get_conversation_messages "c-1" Sample.alice w'))
     = [("user", "hello"); ("assistant", "hi there"); ("user", "again");
        ("assistant", "Hello")].
Proof.
  split; [reflexivity|].
  refine (listing_after_successful_turn Sample.env_ok Sample.req Sample.alice
            Sample.world _ [Chunk "Hel"; Chunk "lo"; Done] _ eq_refl eq_refl
            eq_refl _ sample_history_not_after _).
  - intros E; discriminate E.
  - vm_compute. intros E; discriminate E.
Defined.

Lemma conversation_ids_stay_unique_witness :
  unique_conversation_ids Sample.store
  /\ unique_conversation_ids
       (db (snd (chat_stream Sample.env_ok Sample2.req_new Sample.mallory
                   Sample.world)))
  /\ unique_conversation_ids
       (db (snd (generate_conversation_title Sample.env_ok "c-1"
                   Sample.alice Sample.world))).
Proof.
  split; [exact sample_ids_unique|].
  exact (conversation_ids_stay_unique Sample.env_ok Sample2.req_new "c-1"
           Sample.mallory Sample.world sample_ids_unique).
Defined.

Lemma other_users_conversation_is_hidden_witness :
  conversation_by_id "c-1" Sample.store
  = Some (Conversation.mk "c-1" "New Conversation" "u-alice" 5)
  /\ "u-alice" <> User.id Sample.mallory
  /\ generate_conversation_title Sample.env_ok "c-1" Sample.mallory
       Sample.world
     = (HTTPException 404 "Conversation not found", Sample.world)
  /\ get_conversation_messages "c-1" Sample.mallory Sample.world
     = (Ok [], Sample.world).
Proof.
  assert (H : "u-alice" <> User.id Sample.mallory)
    by (intros E; discriminate E).
  split; [reflexivity|]. split; [exact H|].
  exact (other_users_conversation_is_hidden Sample.env_ok "c-1"
           Sample.mallory Sample.world _ sample_ids_unique eq_refl H).
Defined.

Lemma failed_turn_keeps_prompt_only_witness :
  let w' :=
    snd (chat_stream Sample.env_provider_fails Sample.req Sample.alice
           Sample.world) in
  chat_stream Sample.env_provider_fails Sample.req Sample.alice Sample.world
  = (Ok [Chunk "Hel"; Error "connection reset"], w')
  /\ exists um,
      messages (db w') = [Sample.hello; Sample.hi_there; um]
      /\ Message.role um = "user"
      /\ Message.content um = "again"
      /\ Message.conversationId um = "c-1".
Proof.
  split; [reflexivity|].
  exact (failed_turn_keeps_prompt_only Sample.env_provider_fails Sample.req
           Sample.alice Sample.world _ _ "connection reset" eq_refl eq_refl).
Defined.

Lemma new_conversation_is_listed_witness :
  let w' :=
    snd (chat_stream Sample.env_ok Sample2.req_new Sample.mallory
           Sample.world) in
  conversation_by_id "c-9" Sample.store = None
  /\ fst (chat_stream Sample.env_ok Sample2.req_new Sample.mallory
            Sample.world)
     = Ok [Chunk "Hel"; Chunk "lo"; Done]
  /\ get_conversations 1 Sample.mallory w'
     = [ConversationOut.mk "c-9" "New Conversation"]
  /\ get_conversations 1 Sample.alice w'
     = get_conversations 1 Sample.alice Sample.world.
Proof.
  assert (H : User.id Sample.alice <> User.id Sample.mallory)
    by (intros E; discriminate E).
  split; [reflexivity|]. split; [reflexivity|].
  pose proof (new_conversation_is_listed Sample.env_ok Sample2.req_new
                Sample.mallory Sample.world _ _ eq_refl eq_refl)
    as (A & B & _).
  split; [exact A | exact (B Sample.alice H)].
Defined.

Lemma signup_keeps_emails_unique_witness :
  In "alice@example.org" (map User.email (site_users SampleAuth.site))
  /\ signup SampleAuth.lib Sample.env_ok
       (mkUserSignup "alice@example.org" "pw" None) SampleAuth.site
     = (HTTPException 400 "Email already registered", SampleAuth.site)
  /\ unique_emails SampleAuth.site
  /\ unique_emails
       (snd (signup SampleAuth.lib Sample.env_ok SampleAuth.carol
               SampleAuth.site)).
Proof.
  assert (Hin : In "alice@example.org"
                  (map User.email (site_users SampleAuth.site)))
    by (simpl; now left).
  assert (Hu : unique_emails SampleAuth.site).
  { unfold unique_emails. simpl.
    repeat constructor; simpl; intuition discriminate. }
  split; [exact Hin|]. split.
  - exact (proj1 (signup_keeps_emails_unique SampleAuth.lib Sample.env_ok
                    (mkUserSignup "alice@example.org" "pw" None)
                    SampleAuth.site) Hin).
  - split; [exact Hu|].
    exact (proj2 (proj2 (proj2
             (signup_keeps_emails_unique SampleAuth.lib Sample.env_ok
                SampleAuth.carol SampleAuth.site))) Hu).
Defined.


(** The token of carol, stamped to expire at 104 plus 24 hours, is used
    at the time 200. *)
Lemma token_of_signup_is_accepted_witness :
  let result :=
    signup (SampleAuth.lib_at 200) Sample.env_ok SampleAuth.carol
      SampleAuth.site in
  jwt_round_trip_at (SampleAuth.lib_at 200) 200
  /\ (200 < env_utcnow Sample.env_ok 4
             + timedelta_hours JWT_EXPIRATION_HOURS)%Z
  /\ (forall u, In u (site_users SampleAuth.site) -> User.id u <> "b-uuid")
  /\ (exists response,
         fst result = Returned response
         /\ access_token response = "jwt:b-uuid")
  /\ exists u,
      get_current_user (SampleAuth.lib_at 200) "jwt:b-uuid" (snd result)
      = Returned u
      /\ User.email u = "carol@example.org".
Proof.
  assert (Hfresh : forall u, In u (site_users SampleAuth.site) ->
                             User.id u <> "b-uuid").
  { intros u [<- | [<- | []]] E; discriminate E. }
  assert (Hnow : (200 < env_utcnow Sample.env_ok 4
                        + timedelta_hours JWT_EXPIRATION_HOURS)%Z)
    by reflexivity.
  split; [exact (sample_lib_at_round_trip 200)|].
  split; [exact Hnow|]. split; [exact Hfresh|].
  split; [eexists; split; reflexivity|].
  destruct (token_of_signup_is_accepted (SampleAuth.lib_at 200) Sample.env_ok
              SampleAuth.carol SampleAuth.site _ _ 200
              (sample_lib_at_round_trip 200) Hnow eq_refl Hfresh)
    as (u & E & _ & He).
  exists u. split; [exact E | exact He].
Defined.
